(** * Interactive Finance Tracker: the transaction store and the dashboard

    A shallow embedding of [PersonalFinanceTracker-complete-fix.py]: the
    session state ([st.session_state.transactions] and
    [st.session_state.editing_index]), the three button handlers of the
    script (save, edit, delete) and the aggregation done by
    [plot_dashboard].

    Amounts are Python floats in the script.  The session and its
    handlers never compute with an amount, and the first part of this
    file keeps amounts as canonical rationals ([Qc]): every finite float
    is one, and comparisons of floats are the comparisons of these
    rationals.  The sums and the difference of [plot_dashboard] do round:
    module [Numeric] has the dashboard over any arithmetic, with dicts
    that keep the order of insertion, and [binary64] is the arithmetic
    of the script.  The dashboard of the first part is the one of
    [Numeric] at the exact arithmetic ([exact_model_agrees]). *)

From Stdlib Require Import QArith Qcanon Floats.
From stdpp Require Import base numbers strings list gmap fin_maps.

Local Open Scope Qc_scope.

(** ** Transactions and the session state *)

(** A transaction is the dict built on line 104:
    [{"type": ..., "category": ..., "amount": ...}]. *)
Record transaction := Transaction {
  type : string;
  category : string;
  amount : Qc
}.

Global Instance transaction_eq_dec : EqDecision transaction.
Proof. solve_decision. Defined.

(** Lines 14-17: the two keys of [st.session_state]. *)
Record session_state := SessionState {
  transactions : list transaction;
  editing_index : option nat
}.

Global Instance session_state_eq_dec : EqDecision session_state.
Proof. solve_decision. Defined.

(** A fresh session (lines 14-17). *)
Definition initial_state : session_state :=
  {| transactions := []; editing_index := None |}.

(** ** Category lists (lines 20-21) *)

Definition income_categories : list string :=
  ["Salary"; "Business/Profession"; "Interest"; "Dividends"; "Capital Gains";
   "Rental"; "Other Asset Income"; "Refunds/Reimbursements"; "Gifts";
   "Transfers In"; "Other/One time"]%string.

Definition expense_categories : list string :=
  ["Rent"; "Home Loan"; "Vehicle loan"; "Transport"; "Outside Food";
   "Groceries"; "Utilities"; "Insurance"; "Health"; "Family & Education";
   "Lifestyle"; "Travel"; "Fuel"; "Taxes"; "Savings & Investments";
   "House help & Services"; "One-time"; "Transfers Out";
   "Other/One time"]%string.

(** Line 99: the category list offered for the chosen type. *)
Definition categories (trans_type : string) : list string :=
  if String.eqb trans_type "Income" then income_categories
  else expense_categories.

(** ** The dashboard (lines 24-77) *)

(** Python's [max(a, b)] and [min(a, b)]: the first argument is kept
    unless the second is strictly greater (smaller). *)
Definition py_max (a b : Qc) : Qc := if decide (a < b) then b else a.
Definition py_min (a b : Qc) : Qc := if decide (b < a) then b else a.

(** Line 28: [cats[t["category"]] = cats.get(t["category"], 0) + t["amount"]]. *)
Definition tally (cats : gmap string Qc) (t : transaction) : gmap string Qc :=
  <[category t := default 0 (cats !! category t) + amount t]> cats.

(** Lines 26-28: one iteration of the loop, on the pair of dicts. *)
Definition tally_step (acc : gmap string Qc * gmap string Qc) (t : transaction)
  : gmap string Qc * gmap string Qc :=
  if String.eqb (type t) "income" then (tally acc.1 t, acc.2)
  else (acc.1, tally acc.2 t).

(** Lines 25-28. *)
Definition group_by_cat (ts : list transaction)
  : gmap string Qc * gmap string Qc :=
  foldl tally_step (∅, ∅) ts.

(** [sum(d.values())]: starts from 0 and adds each value to the running
    total.  Python walks the dict in insertion order, [map_fold] in its
    own order; exact addition gives the same total either way
    ([sum_values_insert_fresh] below). *)
Definition sum_values (d : gmap string Qc) : Qc :=
  map_fold (λ _ v acc, acc + v) 0 d.

(** Line 55 and line 56. *)
Definition savings (balance : Qc) : Qc := py_max 0 balance.
Definition display_expense (total_expense total_income : Qc) : Qc :=
  py_min total_expense total_income.

(** Lines 54-67: the data of the third pie, [[display_expense, savings]],
    or [None] where the script writes 'No Income Data' instead. *)
Definition allocation_chart (total_income total_expense balance : Qc)
  : option (Qc * Qc) :=
  if decide (0 < total_income) then
    let savings := savings balance in
    let display_expense := display_expense total_expense total_income in
    if decide (0 < display_expense ∨ 0 < savings)
    then Some (display_expense, savings)
    else None
  else None.

(** Lines 38-51: the data of a per-category pie, or [None] for the
    'No Income Data' / 'No Expense Data' placeholder. *)
Definition category_chart (total : Qc) (by_cat : gmap string Qc)
  : option (gmap string Qc) :=
  if decide (0 < total) then Some by_cat else None.

(** What [plot_dashboard] computes and shows. *)
Record dashboard := Dashboard {
  income_by_cat : gmap string Qc;
  expense_by_cat : gmap string Qc;
  total_income : Qc;
  total_expense : Qc;
  balance : Qc;
  income_chart : option (gmap string Qc);
  expense_chart : option (gmap string Qc);
  allocation : option (Qc * Qc)
}.

Definition plot_dashboard (ts : list transaction) : dashboard :=
  let '(income_by_cat, expense_by_cat) := group_by_cat ts in
  let total_income := sum_values income_by_cat in
  let total_expense := sum_values expense_by_cat in
  let balance := total_income - total_expense in
  {| income_by_cat := income_by_cat;
     expense_by_cat := expense_by_cat;
     total_income := total_income;
     total_expense := total_expense;
     balance := balance;
     income_chart := category_chart total_income income_by_cat;
     expense_chart := category_chart total_expense expense_by_cat;
     allocation := allocation_chart total_income total_expense balance |}.

(** Lines 119-122: with no transaction the dashboard is not drawn at all. *)
Definition dashboard_display (ts : list transaction) : option dashboard :=
  match ts with
  | [] => None
  | _ => Some (plot_dashboard ts)
  end.

(** ** Python lists *)

Inductive exn := IndexError | ValueError | StreamlitAPIException.

Global Instance exn_eq_dec : EqDecision exn.
Proof. solve_decision. Defined.

Inductive outcome (A : Type) :=
  | Ok (a : A)
  | Raise (e : exn).
Arguments Ok {A} a.
Arguments Raise {A} e.

(** [l[i]] for an index that is not negative. *)
Definition list_getitem {A} (l : list A) (i : nat) : outcome A :=
  match l !! i with
  | Some x => Ok x
  | None => Raise IndexError
  end.

(** [l[i] = x]. *)
Definition list_setitem {A} (l : list A) (i : nat) (x : A) : outcome (list A) :=
  if decide (i < length l)%nat then Ok (<[i := x]> l) else Raise IndexError.

(** [l.pop(i)]: the element taken out and the list that is left. *)
Definition list_pop {A} (l : list A) (i : nat) : outcome (A * list A) :=
  match l !! i with
  | Some x => Ok (x, delete i l)
  | None => Raise IndexError
  end.

(** [l.index(x)]. *)
Fixpoint list_index_from {A} `{EqDecision A} (l : list A) (x : A) (n : nat)
  : outcome nat :=
  match l with
  | [] => Raise ValueError
  | y :: l' => if decide (y = x) then Ok n else list_index_from l' x (S n)
  end.
Definition list_index {A} `{EqDecision A} (l : list A) (x : A) : outcome nat :=
  list_index_from l x 0.

(** ** The script as a state-and-exception computation *)

(** A piece of the script reads and writes [st.session_state] and either
    yields a value or raises; what was written before a raise stays
    written. *)
Definition script (A : Type) : Type := session_state → outcome A * session_state.

Global Instance script_ret : MRet script := λ A a st, (Ok a, st).
Global Instance script_bind : MBind script := λ A B f c st,
  match c st with
  | (Ok a, st') => f a st'
  | (Raise e, st') => (Raise e, st')
  end.

Definition lift {A} (o : outcome A) : script A := λ st, (o, st).

Definition get_transactions : script (list transaction) :=
  λ st, (Ok (transactions st), st).
Definition get_editing_index : script (option nat) :=
  λ st, (Ok (editing_index st), st).
Definition set_transactions (ts : list transaction) : script unit :=
  λ st, (Ok (), {| transactions := ts; editing_index := editing_index st |}).
Definition set_editing_index (e : option nat) : script unit :=
  λ st, (Ok (), {| transactions := transactions st; editing_index := e |}).

(** ** The form (lines 88-114) *)

(** [str.lower] on ASCII letters, which is all the two labels of the
    type box have. *)
Definition lower_ascii (c : Ascii.ascii) : Ascii.ascii :=
  let n := Ascii.N_of_ascii c in
  if (65 <=? n)%N && (n <=? 90)%N then Ascii.ascii_of_N (n + 32) else c.
Fixpoint lower (s : string) : string :=
  match s with
  | EmptyString => EmptyString
  | String c s' => String (lower_ascii c) (lower s')
  end.

(** Line 101: [min_value=0.01] of the amount field. *)
Definition amount_min_value : Qc := Q2Qc (1 # 100).

(** Line 104. *)
Definition new_transaction (trans_type trans_category : string) (trans_amount : Qc)
  : transaction :=
  {| type := lower trans_type; category := trans_category; amount := trans_amount |}.

(** Lines 89-96: the defaults of the three fields. *)
Definition form_defaults : script (nat * nat * Qc) :=
  e ← get_editing_index;
  match e with
  | Some i =>
      ts ← get_transactions;
      transaction ← lift (list_getitem ts i);
      let default_type_index :=
        if String.eqb (type transaction) "income" then 0%nat else 1%nat in
      let default_cat_list :=
        if String.eqb (type transaction) "income" then income_categories
        else expense_categories in
      default_cat_index ← lift (list_index default_cat_list (category transaction));
      mret (default_type_index, default_cat_index, amount transaction)
  | None => mret (0%nat, 0%nat, 0)
  end.

(** Lines 106-112: the body of the save button, given the transaction
    of line 104. *)
Definition save_button (new_transaction : transaction) : script unit :=
  e ← get_editing_index;
  match e with
  | Some i =>
      ts ← get_transactions;
      ts' ← lift (list_setitem ts i new_transaction);
      set_transactions ts';;
      set_editing_index None
  | None =>
      ts ← get_transactions;
      set_transactions (ts ++ [new_transaction])
  end.

(** ** The transaction rows (lines 130-146) *)

(** Line 141. *)
Definition edit_button (i : nat) : script unit := set_editing_index (Some i).

(** Line 145. *)
Definition delete_button (i : nat) : script unit :=
  ts ← get_transactions;
  r ← lift (list_pop ts i);
  set_transactions r.2.

(** ** One run of the script *)

(** The button the user pressed, with the values of the form for the
    save button and the row for the other two. *)
Inductive button :=
  | SaveTransaction (trans_type trans_category : string) (trans_amount : Qc)
  | EditRow (i : nat)
  | DeleteRow (i : nat).

(** How a run ends: [st.rerun()] or the end of the file. *)
Inductive run_end := Rerun | Finished.

(** Lines 83-146 as far as they read and write the session state: the
    three widgets of the form (lines 98-101) and the drawing of the
    dashboard (lines 116-122) are taken to accept what they are handed,
    and the save button is handed the values of the form.  [run_page]
    below is the run with the widgets and the drawing in it.  Row [i]
    has buttons only while [enumerate] reaches it, that is, for
    [i < len(transactions)]. *)
Definition run_script (pressed : option button) : script run_end :=
  form_defaults;;
  match pressed with
  | Some (SaveTransaction trans_type trans_category trans_amount) =>
      save_button (new_transaction trans_type trans_category trans_amount);;
      mret Rerun
  | Some (EditRow i) =>
      ts ← get_transactions;
      if decide (i < length ts)%nat then edit_button i;; mret Rerun
      else mret Finished
  | Some (DeleteRow i) =>
      ts ← get_transactions;
      if decide (i < length ts)%nat then delete_button i;; mret Rerun
      else mret Finished
  | None => mret Finished
  end.

(** Line 98: the two labels of the type box. *)
Definition type_options : list string := ["Income"; "Expense"]%string.

(** ** The page with its widgets (lines 83-146) *)

Global Instance outcome_ret : MRet outcome := λ A a, Ok a.
Global Instance outcome_bind : MBind outcome := λ A B f o,
  match o with
  | Ok a => f a
  | Raise e => Raise e
  end.

(** [st.selectbox(label, options, index=index)]: Streamlit refuses an
    index that is not one of [options]; otherwise the box yields the
    option the user picked, or the one at [index] while the user has
    picked none. *)
Definition selectbox (options : list string) (index : nat) (picked : option string)
  : outcome string :=
  match options !! index with
  | Some o => Ok (default o picked)
  | None => Raise StreamlitAPIException
  end.

(** [st.number_input(label, min_value=min_value, value=value)]:
    Streamlit refuses a [value] below [min_value]; otherwise the field
    yields what the user typed, or [value] while the user has typed
    nothing. *)
Definition number_input (min_value value : Qc) (typed : option Qc) : outcome Qc :=
  if decide (value < min_value) then Raise StreamlitAPIException
  else Ok (default value typed).

(** [Axes.pie(x)]: matplotlib refuses a negative wedge. *)
Definition pie (x : list Qc) : outcome unit :=
  if decide (Exists (λ v, v < 0) x) then Raise ValueError else Ok ().

(** Lines 38-67: the three pies of [plot_dashboard], each drawn unless
    its placeholder is shown. *)
Definition draw_pies (d : dashboard) : outcome unit :=
  match income_chart d with
  | Some by_cat => pie (map_to_list by_cat).*2
  | None => Ok ()
  end;;
  match expense_chart d with
  | Some by_cat => pie (map_to_list by_cat).*2
  | None => Ok ()
  end;;
  match allocation d with
  | Some (display_expense, savings) => pie [display_expense; savings]
  | None => Ok ()
  end.

(** Lines 119-122. *)
Definition draw_dashboard (ts : list transaction) : outcome unit :=
  match dashboard_display ts with
  | Some d => draw_pies d
  | None => Ok ()
  end.

(** What the user has done to the three fields of the form. *)
Record form_entry := FormEntry {
  picked_type : option string;
  picked_category : option string;
  typed_amount : option Qc
}.

(** The form as the script fills it. *)
Definition untouched : form_entry :=
  {| picked_type := None; picked_category := None; typed_amount := None |}.

(** The button clicked, if any. *)
Inductive click :=
  | ClickSave
  | ClickEdit (i : nat)
  | ClickDelete (i : nat).

(** Lines 83-146, one run.  The form comes first: its defaults, then
    the three widgets; a click on the save button ends the run at line
    114.  Otherwise the dashboard is drawn, then the rows with their
    buttons. *)
Definition run_page (entry : form_entry) (clicked : option click) : script run_end :=
  d ← form_defaults;
  trans_type ← lift (selectbox type_options d.1.1 (picked_type entry));
  trans_category ←
    lift (selectbox (categories trans_type) d.1.2 (picked_category entry));
  trans_amount ← lift (number_input amount_min_value d.2 (typed_amount entry));
  match clicked with
  | Some ClickSave =>
      save_button (new_transaction trans_type trans_category trans_amount);;
      mret Rerun
  | _ =>
      ts ← get_transactions;
      lift (draw_dashboard ts);;
      match clicked with
      | Some (ClickEdit i) =>
          if decide (i < length ts)%nat then edit_button i;; mret Rerun
          else mret Finished
      | Some (ClickDelete i) =>
          if decide (i < length ts)%nat then delete_button i;; mret Rerun
          else mret Finished
      | _ => mret Finished
      end
  end.

(** The session state after a series of runs of the page. *)
Fixpoint run_pages (runs : list (form_entry * option click)) (st : session_state)
  : session_state :=
  match runs with
  | [] => st
  | (entry, clicked) :: runs' => run_pages runs' (run_page entry clicked st).2
  end.

(** The press [run_script] is handed for a click, given the values
    the three widgets yielded. *)
Definition pressed_of (clicked : option click)
    (trans_type trans_category : string) (trans_amount : Qc) : option button :=
  match clicked with
  | Some ClickSave => Some (SaveTransaction trans_type trans_category trans_amount)
  | Some (ClickEdit i) => Some (EditRow i)
  | Some (ClickDelete i) => Some (DeleteRow i)
  | None => None
  end.

(** ** The dashboard over the arithmetic of the script (lines 24-67) *)

(** An arithmetic: the numbers, [0], [+], [-], [<], and the builtin
    [sum] on a list of numbers. *)
Record arith := Arith {
  num : Type;
  zero : num;
  add : num → num → num;
  sub : num → num → num;
  ltb : num → num → bool;
  py_sum : list num → num
}.

Module Numeric.
Section dashboard.
Context {A : arith}.

Record transaction := Transaction {
  type : string;
  category : string;
  amount : num A
}.

(** A Python dict from category to number: the keys are distinct and
    keep the order in which they were first set. *)
Definition dict : Type := list (string * num A).

(** [d.get(k)]. *)
Fixpoint dict_get (d : dict) (k : string) : option (num A) :=
  match d with
  | [] => None
  | (k', v) :: d' => if String.eqb k' k then Some v else dict_get d' k
  end.

(** [d[k] = v]: in place if [k] is a key, at the end if not. *)
Fixpoint dict_set (d : dict) (k : string) (v : num A) : dict :=
  match d with
  | [] => [(k, v)]
  | (k', v') :: d' =>
      if String.eqb k' k then (k', v) :: d' else (k', v') :: dict_set d' k v
  end.

(** [max(a, b)] and [min(a, b)]. *)
Definition py_max (a b : num A) : num A := if ltb A a b then b else a.
Definition py_min (a b : num A) : num A := if ltb A b a then b else a.

(** Line 28. *)
Definition tally (cats : dict) (t : transaction) : dict :=
  dict_set cats (category t)
    (add A (default (zero A) (dict_get cats (category t))) (amount t)).

(** Lines 26-28, one iteration. *)
Definition tally_step (acc : dict * dict) (t : transaction) : dict * dict :=
  if String.eqb (type t) "income" then (tally acc.1 t, acc.2)
  else (acc.1, tally acc.2 t).

(** Lines 25-28. *)
Definition group_by_cat (ts : list transaction) : dict * dict :=
  foldl tally_step ([], []) ts.

(** [sum(d.values())]. *)
Definition sum_values (d : dict) : num A := py_sum A d.*2.

(** Line 55 and line 56. *)
Definition savings (balance : num A) : num A := py_max (zero A) balance.
Definition display_expense (total_expense total_income : num A) : num A :=
  py_min total_expense total_income.

(** Lines 54-67. *)
Definition allocation_chart (total_income total_expense balance : num A)
  : option (num A * num A) :=
  if ltb A (zero A) total_income then
    let savings := savings balance in
    let display_expense := display_expense total_expense total_income in
    if ltb A (zero A) display_expense || ltb A (zero A) savings
    then Some (display_expense, savings)
    else None
  else None.

(** Lines 38-51. *)
Definition category_chart (total : num A) (by_cat : dict) : option dict :=
  if ltb A (zero A) total then Some by_cat else None.

Record dashboard := Dashboard {
  income_by_cat : dict;
  expense_by_cat : dict;
  total_income : num A;
  total_expense : num A;
  balance : num A;
  income_chart : option dict;
  expense_chart : option dict;
  allocation : option (num A * num A)
}.

Definition plot_dashboard (ts : list transaction) : dashboard :=
  let '(income_by_cat, expense_by_cat) := group_by_cat ts in
  let total_income := sum_values income_by_cat in
  let total_expense := sum_values expense_by_cat in
  let balance := sub A total_income total_expense in
  {| income_by_cat := income_by_cat;
     expense_by_cat := expense_by_cat;
     total_income := total_income;
     total_expense := total_expense;
     balance := balance;
     income_chart := category_chart total_income income_by_cat;
     expense_chart := category_chart total_expense expense_by_cat;
     allocation := allocation_chart total_income total_expense balance |}.

(** *** What the report is compared with *)

(** The numbers added one after the other, from [0]. *)
Definition sum_in_order (l : list (num A)) : num A := foldl (add A) (zero A) l.

Definition of_type (ty : string) (ts : list transaction) : list transaction :=
  filter (λ t, type t = ty) ts.
Definition of_category (c : string) (ts : list transaction) : list transaction :=
  filter (λ t, category t = c) ts.

(** The keys in the order in which they first appear. *)
Definition first_seen (ks : list string) : list string :=
  foldl (λ seen k, if decide (k ∈ seen) then seen else seen ++ [k]) [] ks.

(** The dict a list of transactions of one type is due: a key for each
    of their categories, in the order of first appearance, with the
    amounts of the category added in the order of the list. *)
Definition category_sums (ts : list transaction) : dict :=
  map (λ c, (c, sum_in_order (amount <$> of_category c ts)))
      (first_seen (category <$> ts)).

Definition valid_transaction (t : transaction) : Prop :=
  ((type t = "income" ∧ category t ∈ income_categories) ∨
   (type t = "expense" ∧ category t ∈ expense_categories)) ∧
  ltb A (zero A) (amount t) = true.

Definition is_income (t : transaction) : Prop :=
  String.eqb (type t) "income" = true.
End dashboard.
Arguments transaction : clear implicits.
Arguments dict : clear implicits.
Arguments dashboard : clear implicits.
End Numeric.

(** The arithmetic of the script: binary64 floats.  The literal [0] of
    lines 28 and 55 and the start of [sum] are the integer 0, which
    Python turns into the float 0.0 before it compares or adds.  [sum]
    is a parameter: CPython adds from left to right up to version 3.11
    and adds a correction term from 3.12 on. *)
Definition binary64 (sum : list float → float) : arith :=
  {| num := float;
     zero := 0%float;
     add := PrimFloat.add;
     sub := PrimFloat.sub;
     ltb := PrimFloat.ltb;
     py_sum := sum |}.

(** [sum] of CPython up to 3.11; on one or two floats the later
    versions give the same. *)
Definition sum_left (l : list float) : float := foldl PrimFloat.add 0%float l.

(** Exact arithmetic on rationals. *)
Definition exact : arith :=
  {| num := Qc;
     zero := 0;
     add := Qcplus;
     sub := Qcminus;
     ltb := λ a b, bool_decide (a < b);
     py_sum := foldl Qcplus 0 |}.

(** A transaction of the session as a row of the exact dashboard. *)
Definition as_row (t : transaction) : Numeric.transaction exact :=
  @Numeric.Transaction exact (type t) (category t) (amount t).



(** ** Sequences of store operations *)

(** [Add t] is the save button with no edit in progress, [Remove i] the
    delete button of row [i]. *)
Inductive store_op :=
  | Add (t : transaction)
  | Remove (i : nat).

Definition run_op (op : store_op) : script unit :=
  match op with
  | Add t => save_button t
  | Remove i => delete_button i
  end.

Fixpoint run_ops (ops : list store_op) : script unit :=
  match ops with
  | [] => mret ()
  | op :: ops' => run_op op;; run_ops ops'
  end.

(** ** What the report is compared with *)

Fixpoint sum_amounts (ts : list transaction) : Qc :=
  match ts with
  | [] => 0
  | t :: ts' => amount t + sum_amounts ts'
  end.

(** The transactions of one type, and those of one type and category. *)
Definition of_type (ty : string) (ts : list transaction) : list transaction :=
  filter (λ t, type t = ty) ts.
Definition of_category (c : string) (ts : list transaction) : list transaction :=
  filter (λ t, category t = c) ts.

(** The entry a (type, category) pair is due: none without a
    transaction, else the sum of the amounts. *)
Definition category_entry (ty c : string) (ts : list transaction) : option Qc :=
  match of_category c (of_type ty ts) with
  | [] => None
  | sel => Some (sum_amounts sel)
  end.

(** A transaction the form can build: the type is one of the two, the
    category belongs to the list of the type, the amount is positive. *)
Definition valid_transaction (t : transaction) : Prop :=
  ((type t = "income" ∧ category t ∈ income_categories) ∨
   (type t = "expense" ∧ category t ∈ expense_categories)) ∧
  0 < amount t.

Global Instance valid_transaction_dec t : Decision (valid_transaction t).
Proof. unfold valid_transaction. apply _. Defined.

(** The test on line 27. *)
Definition is_income (t : transaction) : Prop := String.eqb (type t) "income" = true.

(** How many adds and how many removes a run has. *)
Fixpoint adds (ops : list store_op) : nat :=
  match ops with
  | [] => 0
  | Add _ :: ops' => S (adds ops')
  | Remove _ :: ops' => adds ops'
  end.
Fixpoint removes (ops : list store_op) : nat :=
  match ops with
  | [] => 0
  | Add _ :: ops' => removes ops'
  | Remove _ :: ops' => S (removes ops')
  end.

(** The transactions added by a run, in the order of the adds. *)
Fixpoint added (ops : list store_op) : list transaction :=
  match ops with
  | [] => []
  | Add t :: ops' => t :: added ops'
  | Remove _ :: ops' => added ops'
  end.

(** ** The vocabularies as the specification lists them *)

Definition spec_income_vocabulary : list string :=
  ["Salary"; "Business/Profession"; "Interest"; "Dividends"; "Capital Gains";
   "Rental"; "Other Asset Income"; "Refunds/Reimbursements"; "Gifts";
   "Transfers In"; "Other/One time"]%string.

Definition spec_expense_vocabulary : list string :=
  ["Rent"; "Home Loan"; "Vehicle loan"; "Transport"; "Outside Food";
   "Groceries"; "Utilities"; "Insurance"; "Health"; "Family & Education";
   "Lifestyle"; "Travel"; "Fuel"; "Taxes"; "Savings & Investments";
   "House help & Services"; "One-time"; "Transfers Out";
   "Other/One time"]%string.

(** ** Sample sessions *)

Definition salary_1000 : transaction := new_transaction "Income" "Salary" (Q2Qc 1000).
Definition gifts_200 : transaction := new_transaction "Income" "Gifts" (Q2Qc 200).
Definition rent_500 : transaction := new_transaction "Expense" "Rent" (Q2Qc 500).
Definition groceries_300 : transaction :=
  new_transaction "Expense" "Groceries" (Q2Qc 300).
Definition rent_1500 : transaction := new_transaction "Expense" "Rent" (Q2Qc 1500).

Definition balanced_month : list transaction :=
  [salary_1000; gifts_200; rent_500; groceries_300].
Definition overspent_month : list transaction :=
  [salary_1000; rent_1500; groceries_300].

Definition three_rows : session_state :=
  {| transactions := [salary_1000; rent_500; groceries_300]; editing_index := None |}.
(** Row 2 is being edited and is the last of two rows. *)
Definition editing_last_row : session_state :=
  {| transactions := [salary_1000; rent_500]; editing_index := Some 1%nat |}.
(** The edit reference points past the only row. *)
Definition stale_edit : session_state :=
  {| transactions := [salary_1000]; editing_index := Some 1%nat |}.

Definition sample_run : list store_op :=
  [Add salary_1000; Add rent_500; Add gifts_200; Remove 1; Add groceries_300;
   Remove 0].

(** ** Sessions *)

(** The category list line 92 picks for the transaction being edited. *)
Definition default_cat_list (t : transaction) : list string :=
  if String.eqb (type t) "income" then income_categories else expense_categories.

(** What the three fields of the form can hold (lines 98-101): a label
    of the type box, a category of the list shown for it, an amount of
    at least [min_value]. *)
Definition form_input_ok (trans_type trans_category : string) (trans_amount : Qc)
  : Prop :=
  trans_type ∈ type_options ∧
  trans_category ∈ categories trans_type ∧
  amount_min_value ≤ trans_amount.

Definition button_ok (pressed : option button) : Prop :=
  match pressed with
  | Some (SaveTransaction trans_type trans_category trans_amount) =>
      form_input_ok trans_type trans_category trans_amount
  | _ => True
  end.

(** Every stored transaction is valid and the edit reference, if any,
    points at a row. *)
Definition well_formed (st : session_state) : Prop :=
  Forall valid_transaction (transactions st) ∧
  match editing_index st with
  | Some e => (e < length (transactions st))%nat
  | None => True
  end.

(** The session state after a series of runs, one per button press
    ([None]: a run with no button pressed).  A run that raises leaves
    the state as it was written up to the raise. *)
Fixpoint run_session (presses : list (option button)) (st : session_state)
  : session_state :=
  match presses with
  | [] => st
  | pressed :: presses' => run_session presses' (run_script pressed st).2
  end.

(** Row 2 of three is being edited. *)
Definition editing_rent : session_state :=
  {| transactions := [salary_1000; rent_500; groceries_300];
     editing_index := Some 1%nat |}.
(** Row 1 of three is being edited. *)
Definition editing_salary : session_state :=
  {| transactions := [salary_1000; rent_500; groceries_300];
     editing_index := Some 0%nat |}.

(** ** Sample months in floats *)

(** The floats Python reads for 0.1, 1.1, 1.3, 2700.85 and 601.28. *)
Definition f_0_1 : float := 0x1.999999999999ap-4%float.
Definition f_1_1 : float := 0x1.199999999999ap+0%float.
Definition f_1_3 : float := 0x1.4cccccccccccdp+0%float.

Definition float_row (type category : string) (amount : float)
  : Numeric.transaction (binary64 sum_left) :=
  @Numeric.Transaction (binary64 sum_left) type category amount.

(** Salary 0.1, Gifts 0.1, Salary 1.1. *)
Definition regrouped_month : list (Numeric.transaction (binary64 sum_left)) :=
  [float_row "income" "Salary" f_0_1;
   float_row "income" "Gifts" f_0_1;
   float_row "income" "Salary" f_1_1].


Definition travel_250 : transaction := new_transaction "Expense" "Travel" (Q2Qc 250).
Definition editing_travel : session_state :=
  {| transactions := [travel_250]; editing_index := Some 0%nat |}.

(** * Properties *)

(** ** Sums over a dict *)

Section sums.
Implicit Types (m : gmap string Qc) (ts : list transaction) (t : transaction).

Lemma Qc_add_swap (a b c : Qc) : a + b + c = a + c + b.
Proof. ring. Qed.

Lemma sum_values_empty : sum_values ∅ = 0.
Proof. unfold sum_values. apply map_fold_empty. Qed.

Lemma sum_values_insert_fresh m k v :
  m !! k = None → sum_values (<[k := v]> m) = sum_values m + v.
Proof.
  intros Hk. unfold sum_values.
  rewrite map_fold_insert_L; [done | | done].
  intros. apply Qc_add_swap.
Qed.

Lemma sum_values_delete m k v :
  m !! k = Some v → sum_values m = sum_values (delete k m) + v.
Proof.
  intros Hk. unfold sum_values.
  rewrite (map_fold_delete_L _ _ k v m); [done | | done].
  intros. apply Qc_add_swap.
Qed.

Lemma sum_values_tally m t : sum_values (tally m t) = sum_values m + amount t.
Proof.
  unfold tally. destruct (m !! category t) as [v|] eqn:Hk; simpl.
  - rewrite <- insert_delete_eq.
    rewrite sum_values_insert_fresh by apply lookup_delete_eq.
    rewrite (sum_values_delete m _ v Hk). ring.
  - rewrite sum_values_insert_fresh by done. ring.
Qed.

Lemma sum_values_foldl_tally ts m :
  sum_values (foldl tally m ts) = sum_values m + sum_amounts ts.
Proof.
  revert m. induction ts as [|t ts IH]; intros m; simpl.
  - ring.
  - rewrite IH, sum_values_tally. ring.
Qed.

Lemma lookup_foldl_tally ts m c :
  foldl tally m ts !! c =
    match of_category c ts with
    | [] => m !! c
    | sel => Some (default 0 (m !! c) + sum_amounts sel)
    end.
Proof.
  revert m. induction ts as [|t ts IH]; intros m; [done|].
  simpl. rewrite IH. unfold of_category. rewrite filter_cons.
  fold (of_category c ts). unfold tally at 1 2.
  destruct (decide (category t = c)) as [->|Hne].
  - rewrite lookup_insert_eq. simpl.
    destruct (of_category c ts); simpl; f_equal; ring.
  - rewrite lookup_insert_ne by done. done.
Qed.
End sums.

(** ** Grouping *)


Lemma group_by_cat_foldl ts inc exp :
  foldl tally_step (inc, exp) ts =
    (foldl tally inc (filter is_income ts),
     foldl tally exp (filter (λ t, ¬ is_income t) ts)).
Proof.
  revert inc exp. induction ts as [|t ts IH]; intros inc exp; [done|].
  simpl. rewrite !filter_cons. unfold tally_step at 2.
  destruct (decide (is_income t)) as [Hi|Hi].
  - rewrite decide_False by tauto. unfold is_income in Hi. rewrite Hi.
    simpl. apply IH.
  - rewrite decide_True by done. unfold is_income in Hi.
    apply not_true_is_false in Hi. rewrite Hi. simpl. apply IH.
Qed.

Lemma filter_is_income ts : filter is_income ts = of_type "income" ts.
Proof.
  unfold of_type. apply list_filter_iff. intros t. unfold is_income.
  apply String.eqb_eq.
Qed.

Lemma filter_not_income ts :
  Forall valid_transaction ts →
  filter (λ t, ¬ is_income t) ts = of_type "expense" ts.
Proof.
  unfold of_type. induction 1 as [|t ts Ht _ IH]; [done|].
  rewrite !filter_cons, IH. unfold is_income.
  destruct Ht as [[[Ht _]|[Ht _]] _]; rewrite Ht; done.
Qed.

(** The two dicts of [plot_dashboard], entry by entry, and their sums. *)
Lemma group_by_cat_valid ts :
  Forall valid_transaction ts →
  group_by_cat ts =
    (foldl tally ∅ (of_type "income" ts), foldl tally ∅ (of_type "expense" ts)).
Proof.
  intros Hv. unfold group_by_cat.
  by rewrite group_by_cat_foldl, filter_is_income, filter_not_income.
Qed.

Lemma lookup_tallied ty c ts :
  foldl tally ∅ (of_type ty ts) !! c = category_entry ty c ts.
Proof.
  rewrite lookup_foldl_tally, lookup_empty. unfold category_entry.
  destruct (of_category c (of_type ty ts)); [done|]. simpl. f_equal. ring.
Qed.

Lemma sum_values_tallied ty ts :
  sum_values (foldl tally ∅ (of_type ty ts)) = sum_amounts (of_type ty ts).
Proof. rewrite sum_values_foldl_tally, sum_values_empty. ring. Qed.

(** With exact amounts, for a list of valid transactions:
    [plot_dashboard] holds for each type one entry per category that has
    a transaction of that type, the sum of their amounts, and no entry
    for any other category; [total_income] and [total_expense] are the
    sums of the income and of the expense amounts, and [balance] is
    their difference. *)
Lemma exact_groups_and_totals (ts : list transaction) :
  Forall valid_transaction ts →
  (∀ c, income_by_cat (plot_dashboard ts) !! c = category_entry "income" c ts) ∧
  (∀ c, expense_by_cat (plot_dashboard ts) !! c = category_entry "expense" c ts) ∧
  (∀ c, of_category c (of_type "income" ts) = [] →
        income_by_cat (plot_dashboard ts) !! c = None) ∧
  (∀ c, of_category c (of_type "expense" ts) = [] →
        expense_by_cat (plot_dashboard ts) !! c = None) ∧
  total_income (plot_dashboard ts) = sum_amounts (of_type "income" ts) ∧
  total_expense (plot_dashboard ts) = sum_amounts (of_type "expense" ts) ∧
  balance (plot_dashboard ts) =
    total_income (plot_dashboard ts) - total_expense (plot_dashboard ts).
Proof.
  intros Hv. unfold plot_dashboard. rewrite (group_by_cat_valid ts Hv). simpl.
  repeat split.
  - intros c. apply lookup_tallied.
  - intros c. apply lookup_tallied.
  - intros c Hc. rewrite lookup_tallied. unfold category_entry. by rewrite Hc.
  - intros c Hc. rewrite lookup_tallied. unfold category_entry. by rewrite Hc.
  - apply sum_values_tallied.
  - apply sum_values_tallied.
Qed.

(** ** The allocation *)

Section allocation.
Implicit Types (a b : Qc).

Lemma Qc_sub_pos a b : b < a → 0 < a - b.
Proof. apply Qclt_minus_iff. Qed.

Lemma Qc_sub_pos_inv a b : 0 < a - b → b < a.
Proof. apply Qclt_minus_iff. Qed.

Lemma Qc_sub_neg a b : a < b → a - b < 0.
Proof.
  intros H. apply (Qcplus_lt_mono_r _ _ (- b)) in H.
  by replace (b + - b) with 0 in H by ring.
Qed.

Lemma Qc_sub_nonneg a b : b ≤ a → 0 ≤ a - b.
Proof. apply Qcle_minus_iff. Qed.

Lemma py_min_le a b : a ≤ b → py_min a b = a.
Proof.
  intros H. unfold py_min. case_decide; [|done].
  by apply Qcle_ngt in H.
Qed.

Lemma py_min_gt a b : b < a → py_min a b = b.
Proof. intros H. unfold py_min. by rewrite decide_True. Qed.

Lemma py_max_zero_le a b : b ≤ a → py_max 0 (a - b) = a - b.
Proof.
  intros H. unfold py_max. case_decide as Hlt; [done|].
  apply Qc_sub_nonneg in H. apply Qcle_ngt in Hlt.
  by apply Qcle_antisym.
Qed.

Lemma py_max_zero_gt a b : a < b → py_max 0 (a - b) = 0.
Proof.
  intros H. unfold py_max. case_decide as Hlt; [|done].
  apply Qc_sub_pos_inv in Hlt. destruct (Qclt_not_le _ _ H).
  by apply Qclt_le_weak.
Qed.

Lemma allocation_chart_income a b :
  0 < a →
  allocation_chart a b (a - b) = Some (display_expense b a, savings (a - b)).
Proof.
  intros Ha. unfold allocation_chart. rewrite decide_True by done.
  simpl. case_decide as Hpos; [done|]. exfalso. apply Hpos.
  unfold display_expense, savings.
  destruct (Qclt_le_dec a b) as [Hab|Hab].
  - left. by rewrite py_min_gt.
  - destruct (Qc_eq_dec a b) as [->|Hne].
    + left. by rewrite py_min_le.
    + right. rewrite py_max_zero_le by done.
      apply Qc_sub_pos. apply Qcle_lt_or_eq in Hab as [?|?]; [done|congruence].
Qed.

Lemma allocation_chart_no_income a b c :
  ¬ 0 < a → allocation_chart a b c = None.
Proof. intros Ha. unfold allocation_chart. by rewrite decide_False. Qed.
End allocation.


(** With exact amounts, for every list of transactions:
    [display_expense] is the smaller of the two totals, [savings] the
    larger of 0 and the balance, and together they make up the total
    income; so do the two numbers of the allocation pie whenever it is
    drawn. *)
Lemma exact_allocation_adds_up (ts : list transaction) :
  let d := plot_dashboard ts in
  let de := display_expense (total_expense d) (total_income d) in
  let sv := savings (balance d) in
  de + sv = total_income d ∧
  (de ≤ total_expense d ∧ de ≤ total_income d ∧
   (de = total_expense d ∨ de = total_income d)) ∧
  (0 ≤ sv ∧ total_income d - total_expense d ≤ sv ∧
   (sv = 0 ∨ sv = total_income d - total_expense d)) ∧
  (∀ x y, allocation d = Some (x, y) → x + y = total_income d).
Proof.
  unfold plot_dashboard. destruct (group_by_cat ts) as [inc exp].
  simpl. set (ti := sum_values inc). set (te := sum_values exp).
  assert (Hsum : display_expense te ti + savings (ti - te) = ti).
  { unfold display_expense, savings.
    destruct (Qclt_le_dec ti te) as [H|H].
    - rewrite py_min_gt, py_max_zero_gt by done. ring.
    - rewrite py_min_le, py_max_zero_le by done. ring. }
  assert (Hchart : ∀ x y,
    allocation_chart ti te (ti - te) = Some (x, y) → x + y = ti).
  { intros x y Hxy. destruct (decide (0 < ti)) as [Hti|Hti].
    - rewrite allocation_chart_income in Hxy by done. by simplify_eq.
    - by rewrite allocation_chart_no_income in Hxy. }
  split; [exact Hsum|]. unfold display_expense, savings.
  destruct (Qclt_le_dec ti te) as [H|H].
  - rewrite py_min_gt, py_max_zero_gt by done. repeat split.
    + by apply Qclt_le_weak.
    + apply Qcle_refl.
    + by right.
    + apply Qcle_refl.
    + by apply Qclt_le_weak, Qc_sub_neg.
    + by left.
    + exact Hchart.
  - rewrite py_min_le, py_max_zero_le by done. repeat split.
    + apply Qcle_refl.
    + done.
    + by left.
    + by apply Qc_sub_nonneg.
    + apply Qcle_refl.
    + by right.
    + exact Hchart.
Qed.

(** ** The buttons *)

Section buttons.
Implicit Types (st : session_state) (t : transaction) (i e : nat).

Lemma save_button_add st t :
  editing_index st = None →
  save_button t st =
    (Ok (), {| transactions := transactions st ++ [t]; editing_index := None |}).
Proof.
  intros He. unfold save_button, mbind, script_bind, get_editing_index.
  rewrite He. unfold get_transactions, set_transactions. simpl.
  by rewrite He.
Qed.

Lemma save_button_update st t e :
  editing_index st = Some e → (e < length (transactions st))%nat →
  save_button t st =
    (Ok (), {| transactions := <[e := t]> (transactions st);
               editing_index := None |}).
Proof.
  intros He Hlt. unfold save_button, mbind, script_bind, get_editing_index.
  rewrite He. unfold get_transactions, lift, list_setitem. simpl.
  by rewrite decide_True.
Qed.

Lemma save_button_stale st t e :
  editing_index st = Some e → ¬ (e < length (transactions st))%nat →
  save_button t st = (Raise IndexError, st).
Proof.
  intros He Hlt. unfold save_button, mbind, script_bind, get_editing_index.
  rewrite He. unfold get_transactions, lift, list_setitem. simpl.
  by rewrite decide_False.
Qed.

Lemma delete_button_ok st i :
  (i < length (transactions st))%nat →
  delete_button i st =
    (Ok (), {| transactions := delete i (transactions st);
               editing_index := editing_index st |}).
Proof.
  intros Hlt. unfold delete_button, mbind, script_bind, get_transactions.
  unfold lift, list_pop. simpl.
  by destruct (lookup_lt_is_Some_2 _ _ Hlt) as [x ->].
Qed.

Lemma delete_button_out st i :
  ¬ (i < length (transactions st))%nat →
  delete_button i st = (Raise IndexError, st).
Proof.
  intros Hge. unfold delete_button, mbind, script_bind, get_transactions.
  unfold lift, list_pop. simpl.
  rewrite (proj2 (lookup_ge_None _ _)); [done | lia].
Qed.

Lemma delete_button_editing_index st i :
  editing_index (delete_button i st).2 = editing_index st.
Proof.
  destruct (decide (i < length (transactions st))%nat).
  - by rewrite delete_button_ok.
  - by rewrite delete_button_out.
Qed.

Lemma form_defaults_state st : (form_defaults st).2 = st.
Proof.
  unfold form_defaults, mbind, script_bind, get_editing_index.
  destruct (editing_index st) as [e|]; [|done].
  unfold get_transactions, lift, list_getitem.
  destruct (transactions st !! e); [|done].
  by destruct (list_index _ _).
Qed.

Lemma form_defaults_stale st e :
  editing_index st = Some e → ¬ (e < length (transactions st))%nat →
  form_defaults st = (Raise IndexError, st).
Proof.
  intros He Hge. unfold form_defaults, mbind, script_bind, get_editing_index.
  rewrite He. unfold get_transactions, lift, list_getitem.
  rewrite (proj2 (lookup_ge_None _ _)); [done | lia].
Qed.
End buttons.

(** ** Runs of store operations *)

Lemma run_ops_cons op ops st :
  run_ops (op :: ops) st =
    match run_op op st with
    | (Ok _, st') => run_ops ops st'
    | (Raise e, st') => (Raise e, st')
    end.
Proof. done. Qed.

Lemma run_ops_invariant ops st0 st :
  editing_index st0 = None →
  run_ops ops st0 = (Ok (), st) →
  editing_index st = None ∧
  (length (transactions st) + removes ops = length (transactions st0) + adds ops)%nat ∧
  transactions st `sublist_of` transactions st0 ++ added ops.
Proof.
  revert st0. induction ops as [|op ops IH]; intros st0 He Hrun.
  - injection Hrun as <-. rewrite app_nil_r. by rewrite He.
  - rewrite run_ops_cons in Hrun. destruct op as [t|i]; simpl in Hrun.
    + rewrite save_button_add in Hrun by done.
      apply IH in Hrun as (He' & Hlen & Hsub); [|done].
      simpl in Hlen, Hsub. rewrite length_app in Hlen. simpl in Hlen.
      rewrite <- app_assoc in Hsub.
      split; [done|]. split; [|done]. simpl. lia.
    + destruct (decide (i < length (transactions st0))%nat) as [Hlt|Hge].
      * rewrite delete_button_ok in Hrun by done.
        apply IH in Hrun as (He' & Hlen & Hsub); [|done].
        simpl in Hlen, Hsub. rewrite length_delete in Hlen
          by by apply lookup_lt_is_Some_2.
        split; [done|]. split.
        -- simpl. lia.
        -- etrans; [exact Hsub|]. apply sublist_app; [|done].
           apply sublist_delete.
      * by rewrite delete_button_out in Hrun.
Qed.

Lemma length_added ops : length (added ops) = adds ops.
Proof. induction ops as [|[t|i] ops IH]; simpl; congruence. Qed.

Lemma sublist_full_length {A} (l1 l2 : list A) :
  l1 `sublist_of` l2 → (length l2 ≤ length l1)%nat → l1 = l2.
Proof.
  induction 1 as [|x l1 l2 _ IH|x l1 l2 Hsub _]; simpl; intros Hlen.
  - done.
  - f_equal. apply IH. lia.
  - apply sublist_length in Hsub. lia.
Qed.

(** C6: a run of adds and removes from the empty store, each remove
    aimed at a row that exists, leaves the added transactions that
    survive, in the order they were added (all of them if nothing was
    removed); their number is the number of adds less the number of
    removes.  A remove of row [i] takes out that row alone: the rows
    before it stay, the rows after it move up by one. *)
Theorem store_ops_from_empty (ops : list store_op) (st : session_state) :
  run_ops ops initial_state = (Ok (), st) →
  transactions st `sublist_of` added ops ∧
  (removes ops = 0%nat → transactions st = added ops) ∧
  length (transactions st) = (adds ops - removes ops)%nat ∧
  (removes ops ≤ adds ops)%nat ∧
  (∀ st0 i x, transactions st0 !! i = Some x →
     ∃ st1, delete_button i st0 = (Ok (), st1) ∧
       S (length (transactions st1)) = length (transactions st0) ∧
       transactions st1 = take i (transactions st0) ++ drop (S i) (transactions st0) ∧
       (∀ j, (j < i)%nat → transactions st1 !! j = transactions st0 !! j) ∧
       (∀ j, (i ≤ j)%nat → transactions st1 !! j = transactions st0 !! S j)).
Proof.
  intros Hrun. apply run_ops_invariant in Hrun as (_ & Hlen & Hsub); [|done].
  simpl in Hlen, Hsub. repeat split; [done | | lia | lia |].
  { intros H0. apply sublist_full_length; [done|]. rewrite length_added. lia. }
  intros st0 i x Hx. pose proof (lookup_lt_Some _ _ _ Hx) as Hlt.
  eexists. split; [by apply delete_button_ok|]. simpl. repeat split.
  - rewrite length_delete by eauto. lia.
  - apply delete_take_drop.
  - intros j Hj. by apply list_lookup_delete_lt.
  - intros j Hj. by apply list_lookup_delete_ge.
Qed.

(** C3, as amended: after [remove(i)] succeeds on a store of [n]
    transactions, a second [remove(i)] raises [IndexError] exactly when
    [i] was the last row ([i = n - 1]); for any earlier row it succeeds
    and takes out the transaction that stood at row [i + 1]. *)
Theorem delete_same_row_twice (st : session_state) (i : nat) :
  (i < length (transactions st))%nat →
  ∃ st1, delete_button i st = (Ok (), st1) ∧
    (delete_button i st1 = (Raise IndexError, st1) ↔
       S i = length (transactions st)) ∧
    ((S i < length (transactions st))%nat →
       delete_button i st1 =
         (Ok (), {| transactions := take i (transactions st) ++
                                    drop (S (S i)) (transactions st);
                    editing_index := editing_index st |})).
Proof.
  intros Hlt. eexists. split; [by apply delete_button_ok|].
  assert (Hlen : S (length (delete i (transactions st))) = length (transactions st)).
  { rewrite length_delete by by apply lookup_lt_is_Some_2. lia. }
  split; [split|].
  - intros Hraise.
    destruct (decide (i < length (delete i (transactions st)))%nat) as [H|H].
    + by rewrite delete_button_ok in Hraise.
    + lia.
  - intros Hlast. apply delete_button_out. simpl. lia.
  - intros Hmore. rewrite delete_button_ok by (simpl; lia). simpl.
    do 2 f_equal. rewrite !delete_take_drop.
    rewrite take_app_le, drop_app_ge by (rewrite ?length_take; lia).
    rewrite take_take, drop_drop, length_take.
    f_equal; [f_equal; lia | f_equal; lia].
Qed.

(** C5: a save while the edit reference points at no row raises
    [IndexError] and leaves the session as it was; so does the whole run
    of the script, which fails while it fills the form. *)
Theorem update_out_of_range (st : session_state) (t : transaction) (e : nat) :
  editing_index st = Some e →
  ¬ (e < length (transactions st))%nat →
  save_button t st = (Raise IndexError, st) ∧
  (∀ pressed, run_script pressed st = (Raise IndexError, st)).
Proof.
  intros He Hge. split; [by apply (save_button_stale st t e)|].
  intros pressed. unfold run_script, mbind, script_bind.
  by rewrite (form_defaults_stale st e).
Qed.

(** C10: deleting a row, any row, leaves [editing_index] as it was.  A
    save that follows writes to that same row number if the store still
    has it, and raises [IndexError] if not. *)
Theorem delete_keeps_editing_index (st : session_state) (e i : nat) :
  editing_index st = Some e →
  let st1 := (delete_button i st).2 in
  editing_index st1 = Some e ∧
  editing_index (run_script (Some (DeleteRow i)) st).2 = Some e ∧
  (∀ t, (e < length (transactions st1))%nat →
     save_button t st1 =
       (Ok (), {| transactions := <[e := t]> (transactions st1);
                  editing_index := None |})) ∧
  (∀ t, ¬ (e < length (transactions st1))%nat →
     save_button t st1 = (Raise IndexError, st1)).
Proof.
  intros He st1.
  assert (He1 : editing_index st1 = Some e).
  { unfold st1. by rewrite delete_button_editing_index. }
  repeat split.
  - done.
  - unfold run_script, mbind, script_bind.
    pose proof (form_defaults_state st) as Hf.
    destruct (form_defaults st) as [[d|x] st']; simpl in Hf; subst st'; [|done].
    unfold get_transactions. case_decide; [|done].
    rewrite delete_button_ok by done. done.
  - intros t Hlt. by apply (save_button_update st1 t e).
  - intros t Hge. by apply (save_button_stale st1 t e).
Qed.

(** C7: with no transaction, both totals are 0, both dicts are empty
    and no pie has data; the script does not even call [plot_dashboard]
    then. *)
Theorem plot_dashboard_empty :
  total_income (plot_dashboard []) = 0 ∧
  total_expense (plot_dashboard []) = 0 ∧
  balance (plot_dashboard []) = 0 ∧
  income_by_cat (plot_dashboard []) = ∅ ∧
  expense_by_cat (plot_dashboard []) = ∅ ∧
  income_chart (plot_dashboard []) = None ∧
  expense_chart (plot_dashboard []) = None ∧
  allocation (plot_dashboard []) = None ∧
  dashboard_display [] = None.
Proof. repeat split; by vm_compute. Qed.

(** C8: the two category lists are the 11 income labels and the 19
    expense labels of the specification, in the same order and with the
    same spelling. *)
Theorem category_vocabularies :
  income_categories = spec_income_vocabulary ∧
  length income_categories = 11%nat ∧
  expense_categories = spec_expense_vocabulary ∧
  length expense_categories = 19%nat ∧
  head expense_categories = Some "Rent"%string ∧
  last expense_categories = Some "Other/One time"%string ∧
  NoDup income_categories ∧ NoDup expense_categories.
Proof.
  repeat split; try reflexivity; apply (bool_decide_unpack _); by vm_compute.
Qed.

(** ** The example of the specification *)

Example balanced_month_totals :
  total_income (plot_dashboard balanced_month) = Q2Qc 1200 ∧
  total_expense (plot_dashboard balanced_month) = Q2Qc 800 ∧
  balance (plot_dashboard balanced_month) = Q2Qc 400 ∧
  allocation (plot_dashboard balanced_month) = Some (Q2Qc 800, Q2Qc 400) ∧
  income_by_cat (plot_dashboard balanced_month) =
    {[ "Salary"%string := Q2Qc 1000; "Gifts"%string := Q2Qc 200 ]} ∧
  expense_by_cat (plot_dashboard balanced_month) =
    {[ "Rent"%string := Q2Qc 500; "Groceries"%string := Q2Qc 300 ]}.
Proof. repeat split; by vm_compute. Qed.

Example overspent_month_totals :
  total_income (plot_dashboard overspent_month) = Q2Qc 1000 ∧
  total_expense (plot_dashboard overspent_month) = Q2Qc 1800 ∧
  balance (plot_dashboard overspent_month) = Q2Qc (-800) ∧
  allocation (plot_dashboard overspent_month) = Some (Q2Qc 1000, 0).
Proof. repeat split; by vm_compute. Qed.

(** Expenses without any income: the script draws no allocation. *)
Example expenses_only_no_allocation :
  total_expense (plot_dashboard [rent_500]) = Q2Qc 500 ∧
  allocation (plot_dashboard [rent_500]) = None.
Proof. split; by vm_compute. Qed.

(** ** Instances and counterexamples *)

Lemma balanced_month_valid : Forall valid_transaction balanced_month.
Proof. apply (bool_decide_unpack _). by vm_compute. Qed.


Lemma store_ops_from_empty_witness :
  run_ops sample_run initial_state =
    (Ok (), {| transactions := [gifts_200; groceries_300]; editing_index := None |}) ∧
  [gifts_200; groceries_300] `sublist_of` added sample_run ∧
  length [gifts_200; groceries_300] = (adds sample_run - removes sample_run)%nat.
Proof.
  assert (Hrun : run_ops sample_run initial_state =
    (Ok (), {| transactions := [gifts_200; groceries_300]; editing_index := None |}))
    by by vm_compute.
  split; [exact Hrun|].
  destruct (store_ops_from_empty sample_run _ Hrun) as (Hsub & _ & Hlen & _).
  split; [exact Hsub | exact Hlen].
Defined.

(** On three rows, deleting row 0 twice succeeds both times. *)
Lemma delete_same_row_twice_counterexample :
  (0 < length (transactions three_rows))%nat ∧
  delete_button 0 three_rows =
    (Ok (), {| transactions := [rent_500; groceries_300]; editing_index := None |}) ∧
  delete_button 0
    {| transactions := [rent_500; groceries_300]; editing_index := None |} =
    (Ok (), {| transactions := [groceries_300]; editing_index := None |}) ∧
  (delete_button 0
    {| transactions := [rent_500; groceries_300]; editing_index := None |}).1
    ≠ Raise IndexError.
Proof. split; [simpl; lia|]. repeat split; by vm_compute. Qed.

Lemma delete_same_row_twice_witness :
  (2 < length (transactions three_rows))%nat ∧
  ∃ st1, delete_button 2 three_rows = (Ok (), st1) ∧
    (delete_button 2 st1 = (Raise IndexError, st1) ↔
       3%nat = length (transactions three_rows)).
Proof.
  assert (H : (2 < length (transactions three_rows))%nat) by (simpl; lia).
  split; [exact H|].
  destruct (delete_same_row_twice three_rows 2 H) as (st1 & H1 & H2 & _).
  exists st1. split; [exact H1 | exact H2].
Defined.

Lemma update_out_of_range_witness :
  editing_index stale_edit = Some 1%nat ∧
  ¬ (1 < length (transactions stale_edit))%nat ∧
  save_button rent_500 stale_edit = (Raise IndexError, stale_edit).
Proof.
  assert (H : ¬ (1 < length (transactions stale_edit))%nat) by (simpl; lia).
  split; [reflexivity|]. split; [exact H|].
  exact (proj1 (update_out_of_range stale_edit rent_500 1 eq_refl H)).
Defined.

Lemma delete_keeps_editing_index_witness :
  editing_index editing_last_row = Some 1%nat ∧
  editing_index (delete_button 0 editing_last_row).2 = Some 1%nat.
Proof.
  split; [reflexivity|].
  exact (proj1 (delete_keeps_editing_index editing_last_row 1 0 eq_refl)).
Defined.

(** After that deletion the edit reference points at no row, and every
    later run of the script raises. *)
Example delete_leaves_stale_edit :
  (delete_button 0 editing_last_row).2 =
    {| transactions := [rent_500]; editing_index := Some 1%nat |} ∧
  run_script None (delete_button 0 editing_last_row).2 =
    (Raise IndexError, (delete_button 0 editing_last_row).2).
Proof. split; by vm_compute. Qed.

(** With three rows and row 1 being edited, deleting row 0 makes the save
    overwrite what was row 2. *)
Example delete_retargets_edit :
  let st := {| transactions := [salary_1000; rent_500; groceries_300];
               editing_index := Some 1%nat |} in
  (save_button rent_1500 (delete_button 0 st).2).2 =
    {| transactions := [rent_500; rent_1500]; editing_index := None |}.
Proof. by vm_compute. Qed.

(** * Further properties of the script *)

(** ** [list.index] *)

Lemma list_index_from_spec {A} `{EqDecision A} (l : list A) (x : A) (n : nat) :
  match list_index_from l x n with
  | Ok k => ∃ j, k = (n + j)%nat ∧ l !! j = Some x ∧
                 ∀ j', (j' < j)%nat → l !! j' ≠ Some x
  | Raise e => e = ValueError ∧ x ∉ l
  end.
Proof.
  revert n. induction l as [|y l IH]; intros n; simpl.
  - split; [done|]. apply not_elem_of_nil.
  - case_decide as Hy.
    + subst y. exists 0%nat. split; [lia|]. split; [done|]. intros j' Hj'. lia.
    + specialize (IH (S n)). destruct (list_index_from l x (S n)) as [k|e].
      * destruct IH as (j & -> & Hj & Hfirst). exists (S j).
        split; [lia|]. split; [done|].
        intros [|j'] Hj'; simpl; [congruence|]. apply Hfirst. lia.
      * destruct IH as [-> Hx]. split; [done|].
        rewrite elem_of_cons. intros [?|?]; congruence.
Qed.

Lemma list_index_found {A} `{EqDecision A} (l : list A) (x : A) :
  x ∈ l → ∃ k, list_index l x = Ok k ∧ l !! k = Some x.
Proof.
  intros Hx. unfold list_index.
  pose proof (list_index_from_spec l x 0) as H.
  destruct (list_index_from l x 0) as [k|e].
  - destruct H as (j & -> & Hj & _). by exists j.
  - by destruct H as [_ H].
Qed.

Lemma list_index_missing {A} `{EqDecision A} (l : list A) (x : A) :
  x ∉ l → list_index l x = Raise ValueError.
Proof.
  intros Hx. unfold list_index.
  pose proof (list_index_from_spec l x 0) as H.
  destruct (list_index_from l x 0) as [k|e].
  - destruct H as (j & _ & Hj & _). destruct Hx. by eapply list_elem_of_lookup_2.
  - by destruct H as [-> _].
Qed.

(** ** Filling the form *)

Lemma form_defaults_editing st e t :
  editing_index st = Some e → transactions st !! e = Some t →
  form_defaults st =
    match list_index (default_cat_list t) (category t) with
    | Ok k => (Ok (if String.eqb (type t) "income" then 0%nat else 1%nat,
                   k, amount t), st)
    | Raise x => (Raise x, st)
    end.
Proof.
  intros He Ht. unfold form_defaults, mbind, script_bind, get_editing_index.
  rewrite He. unfold get_transactions, lift, list_getitem. rewrite Ht.
  unfold default_cat_list. by destruct (list_index _ _).
Qed.

Lemma valid_default_cat_list t :
  valid_transaction t → category t ∈ default_cat_list t.
Proof.
  unfold default_cat_list. by intros [[[-> ?]|[-> ?]] _].
Qed.

Lemma valid_type_label t :
  valid_transaction t →
  ∃ label, type_options !! (if String.eqb (type t) "income" then 0 else 1)%nat
             = Some label ∧
           lower label = type t ∧ categories label = default_cat_list t.
Proof.
  unfold default_cat_list. intros [[[Ht ?]|[Ht ?]] _]; rewrite Ht; simpl.
  - by exists "Income"%string.
  - by exists "Expense"%string.
Qed.

(** X1: while a valid transaction is being edited, the defaults of the
    form lead back to it: the type index names its type label, the
    category index names its category in the list shown for that label,
    the amount is its amount; saving the form as filled would store the
    same transaction again.  Nothing is written to the session. *)
Theorem form_defaults_prefill (st : session_state) (e : nat) (t : transaction) :
  editing_index st = Some e →
  transactions st !! e = Some t →
  valid_transaction t →
  ∃ default_type_index default_cat_index label,
    form_defaults st =
      (Ok (default_type_index, default_cat_index, amount t), st) ∧
    type_options !! default_type_index = Some label ∧
    categories label !! default_cat_index = Some (category t) ∧
    new_transaction label (category t) (amount t) = t.
Proof.
  intros He Ht Hv. rewrite (form_defaults_editing st e t He Ht).
  destruct (list_index_found _ _ (valid_default_cat_list t Hv)) as (k & Hk & Hlk).
  destruct (valid_type_label t Hv) as (label & Hl & Hlow & Hcats).
  rewrite Hk. eexists _, k, label. split; [done|]. split; [done|].
  split; [by rewrite Hcats|].
  unfold new_transaction. rewrite Hlow. by destruct t.
Qed.

(** X2: filling the form fails in exactly two ways, and never writes
    to the session: [IndexError] when the edit reference points at no
    row, [ValueError] when the category of the row being edited is not in
    the list of its type.  With no edit in progress the defaults are
    (0, 0, 0). *)
Theorem form_defaults_failures (st : session_state) :
  (form_defaults st).2 = st ∧
  (editing_index st = None → form_defaults st = (Ok (0%nat, 0%nat, 0), st)) ∧
  ((form_defaults st).1 = Raise IndexError ↔
     ∃ e, editing_index st = Some e ∧ (length (transactions st) ≤ e)%nat) ∧
  ((form_defaults st).1 = Raise ValueError ↔
     ∃ e t, editing_index st = Some e ∧ transactions st !! e = Some t ∧
            category t ∉ default_cat_list t).
Proof.
  split; [apply form_defaults_state|].
  split.
  { intros He. unfold form_defaults, mbind, script_bind, get_editing_index.
    by rewrite He. }
  destruct (editing_index st) as [e|] eqn:He.
  - destruct (transactions st !! e) as [t|] eqn:Ht.
    + rewrite (form_defaults_editing st e t He Ht).
      pose proof (lookup_lt_Some _ _ _ Ht) as Hlt.
      destruct (decide (category t ∈ default_cat_list t)) as [Hin|Hout].
      * destruct (list_index_found _ _ Hin) as (k & -> & _). simpl.
        split; split; try done.
        -- intros (e' & [= <-] & Hge). lia.
        -- intros (e' & t' & [= <-] & Ht' & Hn). congruence.
      * rewrite (list_index_missing _ _ Hout). simpl.
        split; split; try done.
        -- intros (e' & [= <-] & Hge). lia.
        -- intros _. by exists e, t.
    + pose proof (proj1 (lookup_ge_None _ _) Ht) as Hge.
      rewrite (form_defaults_stale st e He) by lia. simpl.
      split; split; try done.
      * intros _. by exists e.
      * intros (e' & t' & [= <-] & Ht' & _). congruence.
  - unfold form_defaults, mbind, script_bind, get_editing_index.
    rewrite He. simpl. split; split; try done.
    + by intros (e & ? & _).
    + by intros (e & t & ? & _).
Qed.

(** ** Runs of the script *)

Lemma form_input_valid trans_type trans_category trans_amount :
  form_input_ok trans_type trans_category trans_amount →
  valid_transaction (new_transaction trans_type trans_category trans_amount).
Proof.
  intros (Hty & Hc & Ha). unfold valid_transaction, new_transaction. simpl.
  split.
  - unfold type_options in Hty. apply elem_of_cons in Hty as [->|Hty].
    + left. by split.
    + apply list_elem_of_singleton in Hty as ->. right. by split.
  - eapply Qclt_le_trans; [|exact Ha]. done.
Qed.

Lemma well_formed_form_defaults st :
  well_formed st → ∃ d, form_defaults st = (Ok d, st).
Proof.
  intros [Hv He]. destruct (editing_index st) as [e|] eqn:Hei.
  - destruct (lookup_lt_is_Some_2 _ _ He) as [t Ht].
    assert (Hvt : valid_transaction t).
    { eapply Forall_lookup_1; [exact Hv | exact Ht]. }
    rewrite (form_defaults_editing st e t Hei Ht).
    destruct (list_index_found _ _ (valid_default_cat_list t Hvt)) as (k & -> & _).
    eauto.
  - unfold form_defaults, mbind, script_bind, get_editing_index.
    rewrite Hei. eauto.
Qed.

Lemma run_script_raise st x :
  (form_defaults st).1 = Raise x → ∀ pressed, run_script pressed st = (Raise x, st).
Proof.
  intros Hx pressed. unfold run_script, mbind, script_bind.
  pose proof (form_defaults_state st) as Hst.
  destruct (form_defaults st) as [[d|y] st']; simpl in *; by simplify_eq.
Qed.

Lemma run_script_ok st d pressed :
  form_defaults st = (Ok d, st) →
  run_script pressed st =
    match pressed with
    | Some (SaveTransaction trans_type trans_category trans_amount) =>
        match save_button (new_transaction trans_type trans_category trans_amount) st with
        | (Ok _, st') => (Ok Rerun, st')
        | (Raise x, st') => (Raise x, st')
        end
    | Some (EditRow i) =>
        if decide (i < length (transactions st))%nat
        then (Ok Rerun, {| transactions := transactions st; editing_index := Some i |})
        else (Ok Finished, st)
    | Some (DeleteRow i) =>
        if decide (i < length (transactions st))%nat
        then (Ok Rerun, {| transactions := delete i (transactions st);
                           editing_index := editing_index st |})
        else (Ok Finished, st)
    | None => (Ok Finished, st)
    end.
Proof.
  intros Hd. unfold run_script, mbind at 1, script_bind at 1. rewrite Hd.
  destruct pressed as [[ty c a|i|i]|]; try done.
  - unfold mbind, script_bind, get_transactions. by case_decide.
  - unfold mbind at 1, script_bind at 1, get_transactions. case_decide; [|done].
    unfold mbind, script_bind. by rewrite delete_button_ok.
Qed.

(** X3: a run of the script keeps every stored transaction valid,
    whichever button is pressed, as long as a save hands in what the
    form can hold: a type label of the type box, a category of the list
    shown for that label, an amount of at least 0.01. *)
Theorem run_script_keeps_valid (st : session_state) (pressed : option button) :
  Forall valid_transaction (transactions st) →
  button_ok pressed →
  Forall valid_transaction (transactions (run_script pressed st).2).
Proof.
  intros Hv Hb.
  destruct (form_defaults st) as [[d|x] st'] eqn:Hd.
  - pose proof (form_defaults_state st) as Hst. rewrite Hd in Hst.
    simpl in Hst. subst st'. rewrite (run_script_ok st d pressed Hd).
    destruct pressed as [[ty c a|i|i]|]; simpl in Hb.
    + apply form_input_valid in Hb.
      destruct (editing_index st) as [e|] eqn:He.
      * destruct (decide (e < length (transactions st))%nat).
        -- rewrite (save_button_update st _ e) by done. simpl.
           by apply Forall_insert.
        -- by rewrite (save_button_stale st _ e).
      * rewrite save_button_add by done. simpl.
        apply Forall_app. split; [done|]. by apply Forall_singleton.
    + by case_decide.
    + case_decide; [|done]. simpl. by apply Forall_delete.
    + done.
  - rewrite (run_script_raise st x); [done|]. by rewrite Hd.
Qed.

(** ** Deleting while a row is being edited *)

Lemma stale_session presses st e :
  editing_index st = Some e → ¬ (e < length (transactions st))%nat →
  run_session presses st = st.
Proof.
  intros He Hge. induction presses as [|pressed presses IH]; [done|].
  simpl. rewrite (run_script_raise st IndexError); [done|].
  by rewrite (form_defaults_stale st e).
Qed.

(** X6: if the last row is the one being edited, deleting a row - that
    one or any other - leaves the edit reference past the end of the
    list.  From then on every run of the script raises [IndexError],
    whatever is pressed, and the session state never changes again. *)
Theorem delete_while_editing_last_row
    (st : session_state) (e i : nat) (presses : list (option button)) :
  well_formed st →
  editing_index st = Some e →
  S e = length (transactions st) →
  (i < length (transactions st))%nat →
  let st1 := (run_script (Some (DeleteRow i)) st).2 in
  st1 = {| transactions := delete i (transactions st); editing_index := Some e |} ∧
  (∀ pressed, run_script pressed st1 = (Raise IndexError, st1)) ∧
  run_session presses st1 = st1.
Proof.
  intros Hwf He Hlast Hi st1.
  destruct (well_formed_form_defaults st Hwf) as [d Hd].
  assert (H1 : st1 = {| transactions := delete i (transactions st);
                        editing_index := Some e |}).
  { unfold st1. rewrite (run_script_ok st d _ Hd).
    rewrite decide_True by done. simpl. by rewrite He. }
  assert (Hstale : ¬ (e < length (transactions st1))%nat).
  { rewrite H1. simpl. rewrite length_delete by by apply lookup_lt_is_Some_2. lia. }
  assert (He1 : editing_index st1 = Some e) by by rewrite H1.
  split; [done|]. split.
  - apply run_script_raise. by rewrite (form_defaults_stale st1 e).
  - by apply (stale_session presses st1 e).
Qed.

Lemma insert_delete_below {A} (l : list A) (i e : nat) (x : A) :
  (e < i)%nat → <[e := x]> (delete i l) = delete i (<[e := x]> l).
Proof.
  revert i e. induction l as [|y l IH]; intros i e Hlt; [by destruct i|].
  destruct i as [|i]; [lia|]. destruct e as [|e]; simpl; [done|].
  f_equal. apply IH. lia.
Qed.

Lemma insert_delete_above {A} (l : list A) (i e : nat) (x : A) :
  (i ≤ e)%nat → <[e := x]> (delete i l) = delete i (<[S e := x]> l).
Proof.
  revert i e. induction l as [|y l IH]; intros i e Hle; [by destruct i|].
  destruct i as [|i]; simpl; [done|].
  destruct e as [|e]; [lia|]. simpl. f_equal. apply IH. lia.
Qed.

(** ** The dashboard of any list *)

Section dashboard.
Implicit Types (ts : list transaction) (t : transaction) (c : string).

Lemma Forall_valid_filter (P : transaction → Prop) `{!∀ t, Decision (P t)} ts :
  Forall valid_transaction ts → Forall valid_transaction (filter P ts).
Proof.
  rewrite !Forall_forall. intros Hall t Ht. apply Hall.
  by apply list_elem_of_filter in Ht as [_ ?].
Qed.

Lemma sum_amounts_nonneg ts : Forall valid_transaction ts → 0 ≤ sum_amounts ts.
Proof.
  induction 1 as [|t ts [_ Ht] _ IH]; simpl; [done|].
  apply Qcplus_nonneg_nonneg; [by apply Qclt_le_weak | done].
Qed.

Lemma sum_amounts_pos ts :
  Forall valid_transaction ts → ts ≠ [] → 0 < sum_amounts ts.
Proof.
  intros Hv Hne. destruct Hv as [|t ts [_ Ht] Hv]; [done|]. simpl.
  apply Qcplus_pos_nonneg; [done | by apply sum_amounts_nonneg].
Qed.
End dashboard.

(** ** The pies of a valid list *)

Lemma plot_dashboard_valid ts :
  Forall valid_transaction ts →
  plot_dashboard ts =
    let income_by_cat := foldl tally ∅ (of_type "income" ts) in
    let expense_by_cat := foldl tally ∅ (of_type "expense" ts) in
    let total_income := sum_amounts (of_type "income" ts) in
    let total_expense := sum_amounts (of_type "expense" ts) in
    {| income_by_cat := income_by_cat;
       expense_by_cat := expense_by_cat;
       total_income := total_income;
       total_expense := total_expense;
       balance := total_income - total_expense;
       income_chart := category_chart total_income income_by_cat;
       expense_chart := category_chart total_expense expense_by_cat;
       allocation :=
         allocation_chart total_income total_expense (total_income - total_expense) |}.
Proof.
  intros Hv. unfold plot_dashboard. rewrite (group_by_cat_valid ts Hv).
  simpl. by rewrite !sum_values_tallied.
Qed.

Lemma category_chart_valid ts by_cat :
  Forall valid_transaction ts →
  (category_chart (sum_amounts ts) by_cat = None ↔ ts = []) ∧
  (ts ≠ [] → category_chart (sum_amounts ts) by_cat = Some by_cat).
Proof.
  intros Hv. unfold category_chart. destruct ts as [|t ts].
  - simpl. split; [done|]. by intros [].
  - rewrite decide_True by by apply sum_amounts_pos. split; [split|]; done.
Qed.

(** X11: for valid transactions, each of the three pies gives way to
    its placeholder exactly when the list has no transaction to feed it:
    the income pie and the allocation pie when there is no income
    transaction, the expense pie when there is no expense transaction.
    Otherwise the income and expense pies show the whole dict. *)
Theorem placeholders_when_nothing_to_show (ts : list transaction) :
  Forall valid_transaction ts →
  let d := plot_dashboard ts in
  (income_chart d = None ↔ of_type "income" ts = []) ∧
  (of_type "income" ts ≠ [] → income_chart d = Some (income_by_cat d)) ∧
  (expense_chart d = None ↔ of_type "expense" ts = []) ∧
  (of_type "expense" ts ≠ [] → expense_chart d = Some (expense_by_cat d)) ∧
  (allocation d = None ↔ of_type "income" ts = []).
Proof.
  intros Hv. rewrite (plot_dashboard_valid ts Hv). simpl.
  pose proof (Forall_valid_filter (λ t, type t = "income"%string) ts Hv) as Hi.
  pose proof (Forall_valid_filter (λ t, type t = "expense"%string) ts Hv) as He.
  fold (of_type "income" ts) in Hi. fold (of_type "expense" ts) in He.
  destruct (category_chart_valid _ (foldl tally ∅ (of_type "income" ts)) Hi)
    as [Hi1 Hi2].
  destruct (category_chart_valid _ (foldl tally ∅ (of_type "expense" ts)) He)
    as [He1 He2].
  repeat split; try (apply Hi1 || apply Hi2 || apply He1 || apply He2); try done.
  - intros Hnone. destruct (of_type "income" ts) as [|t l] eqn:E; [done|].
    rewrite allocation_chart_income in Hnone; [done|].
    by apply sum_amounts_pos.
  - intros ->. by apply allocation_chart_no_income.
Qed.

Lemma py_max_zero_nonneg (b : Qc) : 0 ≤ py_max 0 b.
Proof. unfold py_max. case_decide; [by apply Qclt_le_weak | done]. Qed.

Lemma py_min_nonneg (a b : Qc) : 0 ≤ a → 0 ≤ b → 0 ≤ py_min a b.
Proof. intros Ha Hb. unfold py_min. by case_decide. Qed.

Lemma tallied_entry ty c v ts :
  Forall valid_transaction ts →
  foldl tally ∅ (of_type ty ts) !! c = Some v →
  0 < v ∧ ∃ t, t ∈ ts ∧ type t = ty ∧ category t = c.
Proof.
  intros Hv. rewrite lookup_tallied. unfold category_entry.
  destruct (of_category c (of_type ty ts)) as [|t sel] eqn:E; [done|].
  intros [= <-]. split.
  - apply (sum_amounts_pos (t :: sel)); [|done]. rewrite <- E.
    unfold of_category, of_type. by do 2 apply Forall_valid_filter.
  - exists t. assert (Ht : t ∈ of_category c (of_type ty ts)).
    { rewrite E. apply list_elem_of_here. }
    unfold of_category, of_type in Ht.
    apply list_elem_of_filter in Ht as [Hc Ht].
    by apply list_elem_of_filter in Ht as [Hty Ht].
Qed.

(** X12: for valid transactions no pie is handed a negative number or
    a foreign label: every entry of the income dict is positive and
    filed under an income category, every entry of the expense dict is
    positive and filed under an expense category, and the two numbers
    of the allocation pie are not negative. *)
Theorem pies_are_well_formed (ts : list transaction) :
  Forall valid_transaction ts →
  let d := plot_dashboard ts in
  (∀ c v, income_by_cat d !! c = Some v → 0 < v ∧ c ∈ income_categories) ∧
  (∀ c v, expense_by_cat d !! c = Some v → 0 < v ∧ c ∈ expense_categories) ∧
  (∀ x y, allocation d = Some (x, y) → 0 ≤ x ∧ 0 ≤ y).
Proof.
  intros Hv. rewrite (plot_dashboard_valid ts Hv). simpl.
  split; [|split].
  - intros c v Hc. destruct (tallied_entry _ _ _ _ Hv Hc) as (Hpos & t & Ht & Hty & <-).
    split; [done|].
    destruct (proj1 (Forall_forall _ _) Hv t Ht) as [[[_ ?]|[Hty' _]] _]; [done|].
    congruence.
  - intros c v Hc. destruct (tallied_entry _ _ _ _ Hv Hc) as (Hpos & t & Ht & Hty & <-).
    split; [done|].
    destruct (proj1 (Forall_forall _ _) Hv t Ht) as [[[Hty' _]|[_ ?]] _]; [|done].
    congruence.
  - intros x y Hxy. unfold allocation_chart in Hxy.
    case_decide as Hti; [|done]. simpl in Hxy. case_decide; [|done].
    injection Hxy as <- <-. split.
    + apply py_min_nonneg; [|by apply Qclt_le_weak].
      apply sum_amounts_nonneg. unfold of_type. by apply Forall_valid_filter.
    + apply py_max_zero_nonneg.
Qed.

(** ** Instances of the further properties *)

Lemma three_rows_valid : Forall valid_transaction (transactions three_rows).
Proof. apply (bool_decide_unpack _). by vm_compute. Qed.

Lemma editing_rent_well_formed : well_formed editing_rent.
Proof. split; [exact three_rows_valid | simpl; lia]. Qed.

Lemma editing_salary_well_formed : well_formed editing_salary.
Proof. split; [exact three_rows_valid | simpl; lia]. Qed.

Lemma editing_last_row_well_formed : well_formed editing_last_row.
Proof. split; [apply (bool_decide_unpack _); by vm_compute | simpl; lia]. Qed.

Lemma form_defaults_prefill_witness :
  valid_transaction rent_500 ∧
  ∃ i k label,
    form_defaults editing_rent = (Ok (i, k, amount rent_500), editing_rent) ∧
    type_options !! i = Some label ∧
    categories label !! k = Some (category rent_500) ∧
    new_transaction label (category rent_500) (amount rent_500) = rent_500.
Proof.
  assert (Hv : valid_transaction rent_500)
    by (apply (bool_decide_unpack _); by vm_compute).
  split; [exact Hv|].
  exact (form_defaults_prefill editing_rent 1 rent_500 eq_refl eq_refl Hv).
Defined.

Lemma run_script_keeps_valid_witness :
  button_ok (Some (SaveTransaction "Expense" "Fuel" (Q2Qc 40))) ∧
  Forall valid_transaction
    (transactions
       (run_script (Some (SaveTransaction "Expense" "Fuel" (Q2Qc 40))) three_rows).2).
Proof.
  assert (Hb : button_ok (Some (SaveTransaction "Expense" "Fuel" (Q2Qc 40)))).
  { repeat split; [set_solver | set_solver | by vm_compute]. }
  split; [exact Hb|].
  exact (run_script_keeps_valid three_rows _ three_rows_valid Hb).
Defined.

Lemma delete_while_editing_last_row_witness :
  well_formed editing_last_row ∧
  (run_script (Some (DeleteRow 0)) editing_last_row).2 =
    {| transactions := delete 0%nat (transactions editing_last_row);
       editing_index := Some 1%nat |} ∧
  run_session [None; Some (EditRow 0); Some (DeleteRow 0)]
    (run_script (Some (DeleteRow 0)) editing_last_row).2 =
    (run_script (Some (DeleteRow 0)) editing_last_row).2.
Proof.
  assert (Hlt : (0 < length (transactions editing_last_row))%nat) by (simpl; lia).
  split; [exact editing_last_row_well_formed|].
  destruct (delete_while_editing_last_row editing_last_row 1 0
              [None; Some (EditRow 0); Some (DeleteRow 0)]
              editing_last_row_well_formed eq_refl eq_refl Hlt) as (H1 & _ & H3).
  split; [exact H1 | exact H3].
Defined.

Lemma placeholders_when_nothing_to_show_witness :
  Forall valid_transaction [rent_500; groceries_300] ∧
  income_chart (plot_dashboard [rent_500; groceries_300]) = None ∧
  allocation (plot_dashboard [rent_500; groceries_300]) = None ∧
  expense_chart (plot_dashboard [rent_500; groceries_300]) =
    Some (expense_by_cat (plot_dashboard [rent_500; groceries_300])).
Proof.
  assert (Hv : Forall valid_transaction [rent_500; groceries_300])
    by (apply (bool_decide_unpack _); by vm_compute).
  split; [exact Hv|].
  destruct (placeholders_when_nothing_to_show _ Hv) as (Hi & _ & _ & He & Ha).
  split; [by apply Hi|]. split; [by apply Ha|]. by apply He.
Defined.

Lemma pies_are_well_formed_witness :
  Forall valid_transaction balanced_month ∧
  (∀ c v, income_by_cat (plot_dashboard balanced_month) !! c = Some v →
          0 < v ∧ c ∈ income_categories).
Proof.
  split; [exact balanced_month_valid|].
  exact (proj1 (pies_are_well_formed balanced_month balanced_month_valid)).
Defined.

(** * The page with its widgets *)

Section page.
Implicit Types (st : session_state) (entry : form_entry) (clicked : option click).


Lemma run_page_cases entry clicked st :
  run_page entry clicked st =
    match form_defaults st with
    | (Raise x, _) => (Raise x, st)
    | (Ok d, _) =>
      match selectbox type_options d.1.1 (picked_type entry) with
      | Raise x => (Raise x, st)
      | Ok ty =>
        match selectbox (categories ty) d.1.2 (picked_category entry) with
        | Raise x => (Raise x, st)
        | Ok c =>
          match number_input amount_min_value d.2 (typed_amount entry) with
          | Raise x => (Raise x, st)
          | Ok a =>
            match clicked with
            | Some ClickSave => run_script (pressed_of clicked ty c a) st
            | _ =>
              match draw_dashboard (transactions st) with
              | Raise x => (Raise x, st)
              | Ok _ => run_script (pressed_of clicked ty c a) st
              end
            end
          end
        end
      end
    end.
Proof.
  unfold run_page, mbind at 1, script_bind at 1.
  pose proof (form_defaults_state st) as Hst.
  destruct (form_defaults st) as [[d|x] st'] eqn:Hd; simpl in Hst; subst st'; [|done].
  unfold mbind at 1, script_bind at 1, lift at 1.
  destruct (selectbox type_options d.1.1 (picked_type entry)) as [ty|x]; [|done].
  unfold mbind at 1, script_bind at 1, lift at 1.
  destruct (selectbox (categories ty) d.1.2 (picked_category entry)) as [c|x]; [|done].
  unfold mbind at 1, script_bind at 1, lift at 1.
  destruct (number_input amount_min_value d.2 (typed_amount entry)) as [a|x]; [|done].
  destruct clicked as [[|i|i]|]; simpl.
  - by rewrite (run_script_ok st d _ Hd).
  - unfold mbind at 1, script_bind at 1, get_transactions.
    unfold mbind at 1, script_bind at 1, lift at 1.
    destruct (draw_dashboard (transactions st)) as [[]|x]; [|done].
    rewrite (run_script_ok st d _ Hd). by case_decide.
  - unfold mbind at 1, script_bind at 1, get_transactions.
    unfold mbind at 1, script_bind at 1, lift at 1.
    destruct (draw_dashboard (transactions st)) as [[]|x]; [|done].
    rewrite (run_script_ok st d _ Hd). case_decide; [|done].
    unfold mbind, script_bind. by rewrite delete_button_ok.
  - unfold mbind at 1, script_bind at 1, get_transactions.
    unfold mbind at 1, script_bind at 1, lift at 1.
    destruct (draw_dashboard (transactions st)) as [[]|x]; [|done].
    by rewrite (run_script_ok st d _ Hd).
Qed.

End page.


(** X4: with no edit in progress every run of the page raises
    [StreamlitAPIException] and writes nothing, whatever the user has
    entered or clicked: the amount field is handed the default 0.0,
    which is below its [min_value] of 0.01 (lines 96 and 101).  So a
    session with no edit in progress, a fresh one above all, stays as it
    is through any series of runs. *)
Theorem page_without_edit_raises
    (st : session_state) (entry : form_entry) (clicked : option click)
    (runs : list (form_entry * option click)) :
  editing_index st = None →
  run_page entry clicked st = (Raise StreamlitAPIException, st) ∧
  run_pages runs st = st.
Proof.
  intros He.
  assert (Hone : ∀ entry clicked,
    run_page entry clicked st = (Raise StreamlitAPIException, st)).
  { clear entry clicked. intros entry clicked. rewrite run_page_cases.
    unfold form_defaults, mbind, script_bind, get_editing_index.
    rewrite He. simpl.
    assert (Hcat : ∀ ty, ∃ c, categories ty !! 0%nat = Some c).
    { intros ty. unfold categories. destruct (String.eqb ty "Income"); simpl; eauto. }
    destruct (Hcat (default "Income"%string (picked_type entry))) as [c Hc].
    unfold selectbox. simpl. by rewrite Hc. }
  split; [apply Hone|].
  induction runs as [|[e c] runs IH]; [done|]. simpl. by rewrite Hone.
Qed.




Lemma page_without_edit_raises_witness :
  editing_index initial_state = None ∧
  run_page untouched (Some ClickSave) initial_state =
    (Raise StreamlitAPIException, initial_state) ∧
  run_pages [(untouched, None); (untouched, Some ClickSave)] initial_state =
    initial_state.
Proof.
  split; [reflexivity|].
  exact (page_without_edit_raises initial_state untouched (Some ClickSave)
           [(untouched, None); (untouched, Some ClickSave)] eq_refl).
Defined.

(** ** The handlers one after the other *)

(** X5: the edit button of an existing row [i] followed by the save
    button replaces row [i] by the saved transaction, leaves every other
    row and the number of rows as they were, and ends the edit; neither
    handler raises. *)
Theorem edit_then_save_replaces_row
    (st : session_state) (i : nat) (new : transaction) :
  (i < length (transactions st))%nat →
  let st1 := {| transactions := transactions st; editing_index := Some i |} in
  let st2 := {| transactions := <[i := new]> (transactions st);
                editing_index := None |} in
  edit_button i st = (Ok (), st1) ∧
  save_button new st1 = (Ok (), st2) ∧
  transactions st2 !! i = Some new ∧
  (∀ j, j ≠ i → transactions st2 !! j = transactions st !! j) ∧
  length (transactions st2) = length (transactions st).
Proof.
  intros Hi st1 st2. split; [done|]. split.
  { by rewrite (save_button_update st1 new i). }
  simpl. split; [by apply list_lookup_insert_eq|].
  split; [|apply length_insert].
  intros j Hj. by apply list_lookup_insert_ne.
Qed.

(** X7: a row [i] is deleted while row [e] is being edited, not the
    last row, and the save button follows.  If the deleted row lies
    below row [e], the save replaces the transaction that was being
    edited.  If it is row [e] or a row above it, the save replaces the
    transaction that stood one row below the edited one, and the edited
    transaction, unless it was the one deleted, is kept as it was. *)
Theorem save_after_delete_retargets
    (st : session_state) (e i : nat) (new : transaction) :
  editing_index st = Some e →
  (i < length (transactions st))%nat →
  (S e < length (transactions st))%nat →
  ∃ st1 st2,
    delete_button i st = (Ok (), st1) ∧
    save_button new st1 = (Ok (), st2) ∧
    editing_index st2 = None ∧
    ((e < i)%nat →
       transactions st2 = delete i (<[e := new]> (transactions st))) ∧
    ((i ≤ e)%nat →
       transactions st2 = delete i (<[S e := new]> (transactions st))) ∧
    ((i < e)%nat →
       transactions st2 !! (e - 1)%nat = transactions st !! e).
Proof.
  intros He Hi Hse.
  assert (Hlen : S (length (delete i (transactions st))) = length (transactions st)).
  { rewrite length_delete by by apply lookup_lt_is_Some_2. lia. }
  eexists _, _. split; [by apply delete_button_ok|].
  split; [apply (save_button_update _ new e); simpl; [done | lia]|].
  simpl. split; [done|]. split; [|split].
  - intros Hlt. by apply insert_delete_below.
  - intros Hle. by apply insert_delete_above.
  - intros Hlt. rewrite list_lookup_insert_ne by lia.
    rewrite list_lookup_delete_ge by lia. f_equal. lia.
Qed.

Lemma edit_then_save_replaces_row_witness :
  (1 < length (transactions three_rows))%nat ∧
  save_button gifts_200
    {| transactions := transactions three_rows; editing_index := Some 1%nat |} =
    (Ok (), {| transactions := <[1%nat := gifts_200]> (transactions three_rows);
               editing_index := None |}).
Proof.
  assert (Hlt : (1 < length (transactions three_rows))%nat) by (simpl; lia).
  split; [exact Hlt|].
  exact (proj1 (proj2 (edit_then_save_replaces_row three_rows 1 gifts_200 Hlt))).
Defined.

Lemma save_after_delete_retargets_witness :
  editing_index editing_salary = Some 0%nat ∧
  ∃ st1 st2,
    delete_button 0 editing_salary = (Ok (), st1) ∧
    save_button gifts_200 st1 = (Ok (), st2) ∧
    transactions st2 =
      delete 0%nat (<[1%nat := gifts_200]> (transactions editing_salary)).
Proof.
  assert (Hi : (0 < length (transactions editing_salary))%nat) by (simpl; lia).
  assert (Hse : (1 < length (transactions editing_salary))%nat) by (simpl; lia).
  split; [reflexivity|].
  destruct (save_after_delete_retargets editing_salary 0 0 gifts_200 eq_refl Hi Hse)
    as (st1 & st2 & H1 & H2 & _ & _ & Hle & _).
  exists st1, st2. split; [exact H1|]. split; [exact H2|]. apply Hle. lia.
Defined.

(** * The dashboard over any arithmetic *)

Section numeric.
Context {A : arith}.
Implicit Types (ts : list (Numeric.transaction A)) (t : Numeric.transaction A).
Implicit Types (d : Numeric.dict A) (k c : string) (ks : list string).

Lemma first_seen_snoc ks k :
  Numeric.first_seen (ks ++ [k]) =
    if decide (k ∈ Numeric.first_seen ks) then Numeric.first_seen ks
    else Numeric.first_seen ks ++ [k].
Proof. unfold Numeric.first_seen. by rewrite foldl_snoc. Qed.

Lemma elem_of_first_seen ks k : k ∈ Numeric.first_seen ks ↔ k ∈ ks.
Proof.
  induction ks as [|k' ks IH] using rev_ind; [done|].
  rewrite first_seen_snoc, elem_of_app, list_elem_of_singleton, <- IH.
  case_decide as Hin; [|by rewrite elem_of_app, list_elem_of_singleton].
  split; [tauto|]. intros [?| ->]; done.
Qed.

Lemma NoDup_first_seen ks : NoDup (Numeric.first_seen ks).
Proof.
  induction ks as [|k ks IH] using rev_ind; [constructor|].
  rewrite first_seen_snoc. case_decide as Hin; [done|].
  apply NoDup_app. split; [done|]. split; [|apply NoDup_singleton].
  intros x Hx. rewrite list_elem_of_singleton. by intros ->.
Qed.

Lemma dict_get_map (f : string → num A) ks k :
  Numeric.dict_get (map (λ c, (c, f c)) ks) k =
    if decide (k ∈ ks) then Some (f k) else None.
Proof.
  induction ks as [|k' ks IH].
  - simpl. destruct (decide (k ∈ [])) as [Hin|]; [|done].
    by apply not_elem_of_nil in Hin.
  - change (Numeric.dict_get (map (λ c, (c, f c)) (k' :: ks)) k) with
      (if String.eqb k' k then Some (f k')
       else Numeric.dict_get (map (λ c, (c, f c)) ks) k).
    rewrite IH. destruct (String.eqb k' k) eqn:E.
    + apply String.eqb_eq in E as ->.
      destruct (decide (k ∈ k :: ks)) as [|Hout]; [done|].
      destruct Hout. apply list_elem_of_here.
    + apply String.eqb_neq in E.
      destruct (decide (k ∈ ks)) as [Hin|Hout];
        destruct (decide (k ∈ k' :: ks)) as [Hin'|Hout']; try done.
      * destruct Hout'. by apply list_elem_of_further.
      * apply elem_of_cons in Hin' as [?|?]; [congruence | done].
Qed.

Lemma dict_set_map_new (f : string → num A) ks k v :
  k ∉ ks →
  Numeric.dict_set (map (λ c, (c, f c)) ks) k v = map (λ c, (c, f c)) ks ++ [(k, v)].
Proof.
  induction ks as [|k' ks IH]; intros Hout; simpl; [done|].
  rewrite not_elem_of_cons in Hout. destruct Hout as [Hne Hout].
  rewrite (proj2 (String.eqb_neq k' k)) by congruence. by rewrite IH.
Qed.

Lemma dict_set_map_old (f : string → num A) ks k v :
  NoDup ks → k ∈ ks →
  Numeric.dict_set (map (λ c, (c, f c)) ks) k v =
    map (λ c, (c, if decide (c = k) then v else f c)) ks.
Proof.
  induction 1 as [|k' ks Hk' Hnd IH]; intros Hin; simpl.
  - by apply not_elem_of_nil in Hin.
  - destruct (String.eqb k' k) eqn:E.
    + apply String.eqb_eq in E as ->. rewrite decide_True by done. f_equal.
      apply list_fmap_ext. intros i c Hc. rewrite decide_False; [done|].
      intros ->. apply Hk'. by eapply list_elem_of_lookup_2.
    + apply String.eqb_neq in E. rewrite decide_False by done. f_equal.
      apply IH. apply elem_of_cons in Hin as [?|?]; [congruence | done].
Qed.

Lemma of_category_snoc ts t c :
  Numeric.of_category c (ts ++ [t]) =
    Numeric.of_category c ts ++
      (if decide (Numeric.category t = c) then [t] else []).
Proof.
  unfold Numeric.of_category. by rewrite filter_app.
Qed.

Lemma of_category_unseen ts c :
  c ∉ Numeric.category <$> ts → Numeric.of_category c ts = [].
Proof.
  intros Hc. unfold Numeric.of_category.
  induction ts as [|t ts IH]; [done|]. rewrite fmap_cons, not_elem_of_cons in Hc.
  destruct Hc as [Hne Hc]. rewrite filter_cons, decide_False by congruence. auto.
Qed.

(** The dict of line 28 after a list of transactions. *)
Lemma foldl_tally_category_sums ts :
  foldl Numeric.tally [] ts = Numeric.category_sums ts.
Proof.
  induction ts as [|t ts IH] using rev_ind; [done|].
  rewrite foldl_snoc, IH. unfold Numeric.tally, Numeric.category_sums.
  rewrite fmap_snoc, first_seen_snoc, dict_get_map.
  set (k := Numeric.category t). set (ks := Numeric.first_seen (Numeric.category <$> ts)).
  destruct (decide (k ∈ ks)) as [Hin|Hout]; simpl.
  - rewrite dict_set_map_old by (done || apply NoDup_first_seen).
    apply list_fmap_ext. intros i c Hc. f_equal.
    rewrite of_category_snoc. fold k. case_decide as Hck.
    + subst c. rewrite decide_True by done.
      unfold Numeric.sum_in_order. by rewrite fmap_snoc, foldl_snoc.
    + rewrite decide_False by done. by rewrite app_nil_r.
  - rewrite dict_set_map_new by done. rewrite map_app. simpl. f_equal.
    + apply list_fmap_ext. intros i c Hc. f_equal.
      rewrite of_category_snoc. fold k. rewrite decide_False; [by rewrite app_nil_r|].
      intros ->. apply Hout. by eapply list_elem_of_lookup_2.
    + do 2 f_equal. rewrite of_category_snoc. fold k. rewrite decide_True by done.
      rewrite of_category_unseen; [done|].
      intros Hk. apply Hout. by apply elem_of_first_seen.
Qed.

Global Instance numeric_is_income_dec t : Decision (Numeric.is_income t).
Proof. unfold Numeric.is_income. apply _. Defined.

Lemma numeric_group_by_cat_foldl ts (inc exp : Numeric.dict A) :
  foldl Numeric.tally_step (inc, exp) ts =
    (foldl Numeric.tally inc (filter Numeric.is_income ts),
     foldl Numeric.tally exp (filter (λ t, ¬ Numeric.is_income t) ts)).
Proof.
  revert inc exp. induction ts as [|t ts IH]; intros inc exp; [done|].
  simpl. rewrite !filter_cons. unfold Numeric.tally_step at 2.
  destruct (decide (Numeric.is_income t)) as [Hi|Hi].
  - rewrite decide_False by tauto. unfold Numeric.is_income in Hi. rewrite Hi.
    simpl. apply IH.
  - rewrite decide_True by done. unfold Numeric.is_income in Hi.
    apply not_true_is_false in Hi. rewrite Hi. simpl. apply IH.
Qed.

Lemma numeric_filter_is_income ts :
  filter Numeric.is_income ts = Numeric.of_type "income" ts.
Proof.
  unfold Numeric.of_type. apply list_filter_iff. intros t.
  unfold Numeric.is_income. apply String.eqb_eq.
Qed.

Lemma numeric_filter_not_income ts :
  Forall Numeric.valid_transaction ts →
  filter (λ t, ¬ Numeric.is_income t) ts = Numeric.of_type "expense" ts.
Proof.
  unfold Numeric.of_type. induction 1 as [|t ts Ht _ IH]; [done|].
  rewrite !filter_cons, IH.
  destruct Ht as [[[Ht _]|[Ht _]] _].
  - rewrite decide_False by (unfold Numeric.is_income; rewrite Ht; intros H; by apply H).
    by rewrite decide_False by by rewrite Ht.
  - rewrite decide_True by (unfold Numeric.is_income; by rewrite Ht).
    by rewrite decide_True.
Qed.

Lemma numeric_group_by_cat ts :
  Numeric.group_by_cat ts =
    (Numeric.category_sums (filter Numeric.is_income ts),
     Numeric.category_sums (filter (λ t, ¬ Numeric.is_income t) ts)).
Proof.
  unfold Numeric.group_by_cat.
  by rewrite numeric_group_by_cat_foldl, !foldl_tally_category_sums.
Qed.

Lemma dict_get_category_sums ts c :
  Numeric.dict_get (Numeric.category_sums ts) c =
    match Numeric.of_category c ts with
    | [] => None
    | sel => Some (Numeric.sum_in_order (Numeric.amount <$> sel))
    end.
Proof.
  unfold Numeric.category_sums. rewrite dict_get_map.
  case_decide as Hin.
  - apply elem_of_first_seen, list_elem_of_fmap in Hin as (t & -> & Ht).
    assert (Hsel : t ∈ Numeric.of_category (Numeric.category t) ts).
    { unfold Numeric.of_category. by apply list_elem_of_filter. }
    by destruct (Numeric.of_category (Numeric.category t) ts);
      [apply not_elem_of_nil in Hsel|].
  - rewrite of_category_unseen; [done|]. by rewrite <- elem_of_first_seen.
Qed.
End numeric.

(** * Facts about binary64 floats *)

Section binary64.
Local Open Scope Z_scope.










Local Open Scope float_scope.





End binary64.

(** * The dashboard of the script *)

Section numeric_dashboard.
Context {A : arith}.
Implicit Types (ts : list (Numeric.transaction A)) (t : Numeric.transaction A).
Implicit Types (d : Numeric.dict A) (k c : string).

Global Instance numeric_valid_transaction_dec t :
  Decision (Numeric.valid_transaction t).
Proof. unfold Numeric.valid_transaction. apply _. Defined.

Lemma dict_get_set d k v c :
  Numeric.dict_get (Numeric.dict_set d k v) c =
    if String.eqb k c then Some v else Numeric.dict_get d c.
Proof.
  induction d as [|[k' v'] d IH]; simpl.
  - done.
  - destruct (String.eqb k' k) eqn:E; simpl.
    + apply String.eqb_eq in E as ->. by destruct (String.eqb k c).
    + rewrite IH. destruct (String.eqb k' c) eqn:E'; [|done].
      apply String.eqb_eq in E' as ->. by rewrite (String.eqb_sym k), E.
Qed.

Lemma numeric_group_by_cat_snoc ts t :
  Numeric.group_by_cat (ts ++ [t]) =
    Numeric.tally_step (Numeric.group_by_cat ts) t.
Proof. unfold Numeric.group_by_cat. by rewrite foldl_snoc. Qed.

(** With an addition that is associative and commutative and leaves
    numbers unchanged when it adds them to [0], the values of the dict
    add up to the amounts tallied. *)
Lemma sum_in_order_tally
    (Hassoc : ∀ x y z : num A, add A x (add A y z) = add A (add A x y) z)
    (Hcomm : ∀ x y : num A, add A x y = add A y x)
    (Hzero : ∀ x : num A, add A (zero A) x = x) d t (x : num A) :
  foldl (add A) x (Numeric.tally d t).*2 =
    add A (foldl (add A) x d.*2) (Numeric.amount t).
Proof.
  assert (Hacc : ∀ (l : list (num A)) (y z : num A),
    foldl (add A) (add A y z) l = add A (foldl (add A) y l) z).
  { induction l as [|w l IH]; intros y z; simpl; [done|].
    rewrite <- IH. f_equal. by rewrite <- !Hassoc, (Hcomm z w). }
  unfold Numeric.tally. revert x. induction d as [|[k' v'] d IH]; intros x; simpl.
  - by rewrite Hzero.
  - destruct (String.eqb k' (Numeric.category t)) eqn:E; simpl.
    + rewrite <- Hacc. f_equal. by rewrite Hassoc.
    + apply IH.
Qed.

Lemma exact_sum_of_tallied
    (Hassoc : ∀ x y z : num A, add A x (add A y z) = add A (add A x y) z)
    (Hcomm : ∀ x y : num A, add A x y = add A y x)
    (Hzero : ∀ x : num A, add A (zero A) x = x) ts d :
  Numeric.sum_in_order (foldl Numeric.tally d ts).*2 =
    foldl (add A) (Numeric.sum_in_order d.*2) (Numeric.amount <$> ts).
Proof.
  revert d. induction ts as [|t ts IH]; intros d; [done|].
  simpl. rewrite IH. unfold Numeric.sum_in_order.
  by rewrite sum_in_order_tally.
Qed.

(** In such an arithmetic, with [sum] adding from left to right, the
    two totals are the sums of all the income and of all the expense
    amounts. *)
Lemma exact_totals
    (Hassoc : ∀ x y z : num A, add A x (add A y z) = add A (add A x y) z)
    (Hcomm : ∀ x y : num A, add A x y = add A y x)
    (Hzero : ∀ x : num A, add A (zero A) x = x)
    (Hsum : ∀ l, py_sum A l = Numeric.sum_in_order l) ts :
  Forall Numeric.valid_transaction ts →
  Numeric.total_income (Numeric.plot_dashboard ts) =
    Numeric.sum_in_order (Numeric.amount <$> Numeric.of_type "income" ts) ∧
  Numeric.total_expense (Numeric.plot_dashboard ts) =
    Numeric.sum_in_order (Numeric.amount <$> Numeric.of_type "expense" ts).
Proof.
  intros Hv. unfold Numeric.plot_dashboard.
  rewrite numeric_group_by_cat, <- !foldl_tally_category_sums.
  rewrite numeric_filter_is_income, numeric_filter_not_income by done.
  simpl. unfold Numeric.sum_values. rewrite !Hsum.
  by rewrite !exact_sum_of_tallied.
Qed.
End numeric_dashboard.

(** The two totals and the balance, by lines 30-32. *)
Lemma numeric_totals
    (A : arith) (ts : list (Numeric.transaction A)) :
  Forall Numeric.valid_transaction ts →
  Numeric.total_income (Numeric.plot_dashboard ts) =
    py_sum A (Numeric.category_sums (Numeric.of_type "income" ts)).*2 ∧
  Numeric.total_expense (Numeric.plot_dashboard ts) =
    py_sum A (Numeric.category_sums (Numeric.of_type "expense" ts)).*2 ∧
  Numeric.balance (Numeric.plot_dashboard ts) =
    sub A (Numeric.total_income (Numeric.plot_dashboard ts))
          (Numeric.total_expense (Numeric.plot_dashboard ts)).
Proof.
  intros Hv. unfold Numeric.plot_dashboard. rewrite numeric_group_by_cat.
  by rewrite numeric_filter_is_income, numeric_filter_not_income by done.
Qed.

(** C1, as amended: in the arithmetic of the script, and in any other,
    [plot_dashboard] groups valid transactions by type and then by
    category: each dict has one key for each category of its type that
    has a transaction, in the order of first appearance, and no other;
    the entry is the amounts of that type and category added one after
    the other in the order of the list.  [total_income] is [sum] over
    the entries of the income dict, [total_expense] is [sum] over those
    of the expense dict, and [balance] is their difference. *)
Theorem plot_dashboard_groups_in_order
    (A : arith) (ts : list (Numeric.transaction A)) :
  Forall Numeric.valid_transaction ts →
  let d := Numeric.plot_dashboard ts in
  let incomes := Numeric.of_type "income" ts in
  let expenses := Numeric.of_type "expense" ts in
  Numeric.income_by_cat d = Numeric.category_sums incomes ∧
  Numeric.expense_by_cat d = Numeric.category_sums expenses ∧
  (∀ c, Numeric.dict_get (Numeric.income_by_cat d) c =
        match Numeric.of_category c incomes with
        | [] => None
        | sel => Some (Numeric.sum_in_order (Numeric.amount <$> sel))
        end) ∧
  (∀ c, Numeric.dict_get (Numeric.expense_by_cat d) c =
        match Numeric.of_category c expenses with
        | [] => None
        | sel => Some (Numeric.sum_in_order (Numeric.amount <$> sel))
        end) ∧
  Numeric.total_income d = py_sum A (Numeric.category_sums incomes).*2 ∧
  Numeric.total_expense d = py_sum A (Numeric.category_sums expenses).*2 ∧
  Numeric.balance d = sub A (Numeric.total_income d) (Numeric.total_expense d).
Proof.
  intros Hv. unfold Numeric.plot_dashboard. rewrite numeric_group_by_cat.
  rewrite numeric_filter_is_income, numeric_filter_not_income by done.
  simpl. repeat split; intros; apply dict_get_category_sums.
Qed.

(** Salary 0.1, Gifts 0.1, Salary 1.1: the total income is
    (0.1 + 1.1) + 0.1 = 1.3000000000000003, the income amounts add up
    to (0.1 + 0.1) + 1.1 = 1.3. *)
Lemma total_income_counterexample :
  Forall Numeric.valid_transaction regrouped_month ∧
  Numeric.total_income (Numeric.plot_dashboard regrouped_month) =
    0x1.4cccccccccccep+0%float ∧
  Numeric.sum_in_order (Numeric.amount <$> Numeric.of_type "income" regrouped_month) =
    f_1_3 ∧
  PrimFloat.eqb
    (Numeric.total_income (Numeric.plot_dashboard regrouped_month))
    (Numeric.sum_in_order
       (Numeric.amount <$> Numeric.of_type "income" regrouped_month)) = false.
Proof.
  split; [apply (bool_decide_unpack _); by vm_compute|].
  repeat split; by vm_compute.
Qed.

Lemma plot_dashboard_groups_in_order_witness :
  Forall Numeric.valid_transaction regrouped_month ∧
  Numeric.income_by_cat (Numeric.plot_dashboard regrouped_month) =
    Numeric.category_sums (Numeric.of_type "income" regrouped_month) ∧
  Numeric.total_income (Numeric.plot_dashboard regrouped_month) =
    sum_left (Numeric.category_sums (Numeric.of_type "income" regrouped_month)).*2.
Proof.
  assert (Hv : Forall Numeric.valid_transaction regrouped_month)
    by (apply (bool_decide_unpack _); by vm_compute).
  split; [exact Hv|].
  destruct (plot_dashboard_groups_in_order _ regrouped_month Hv)
    as (Hi & _ & _ & _ & Ht & _).
  split; [exact Hi | exact Ht].
Defined.




(** * The dashboard in exact arithmetic *)

Section exact_model.
Implicit Types (t : transaction) (ts : list transaction).

Lemma as_row_valid ts :
  Forall valid_transaction ts → Forall Numeric.valid_transaction (as_row <$> ts).
Proof.
  intros Hv. apply Forall_fmap. eapply Forall_impl; [exact Hv|].
  intros t [Hc Ha]. split; [exact Hc|]. simpl. by apply bool_decide_eq_true_2.
Qed.

Lemma of_type_as_row ty ts :
  Numeric.of_type ty (as_row <$> ts) = as_row <$> of_type ty ts.
Proof.
  unfold Numeric.of_type, of_type. induction ts as [|t ts IH]; [done|].
  rewrite fmap_cons, !filter_cons. simpl. rewrite IH.
  by destruct (decide (type t = ty)).
Qed.

Lemma of_category_as_row c ts :
  Numeric.of_category c (as_row <$> ts) = as_row <$> of_category c ts.
Proof.
  unfold Numeric.of_category, of_category. induction ts as [|t ts IH]; [done|].
  rewrite fmap_cons, !filter_cons. simpl. rewrite IH.
  by destruct (decide (category t = c)).
Qed.

Lemma sum_in_order_as_row ts :
  @Numeric.sum_in_order exact (Numeric.amount <$> (as_row <$> ts)) = sum_amounts ts.
Proof.
  unfold Numeric.sum_in_order. simpl.
  assert (H : ∀ x, foldl Qcplus x (Numeric.amount <$> (as_row <$> ts)) =
                   x + sum_amounts ts).
  { induction ts as [|t ts IH]; intros x; simpl; [ring|]. rewrite IH. ring. }
  rewrite H. ring.
Qed.

Lemma allocation_chart_exact (ti te b : Qc) :
  allocation_chart ti te b = @Numeric.allocation_chart exact ti te b.
Proof.
  unfold allocation_chart, Numeric.allocation_chart, savings, display_expense,
    Numeric.savings, Numeric.display_expense, py_max, py_min,
    Numeric.py_max, Numeric.py_min.
  simpl.
  repeat (case_decide || case_bool_decide); simpl; try done; tauto.
Qed.

(** The dashboard over the rationals is the dashboard of the script
    with its arithmetic replaced by the exact one: the same entries,
    the same totals, the same allocation. *)
Lemma exact_model_agrees ts :
  Forall valid_transaction ts →
  let d := plot_dashboard ts in
  let n := Numeric.plot_dashboard (as_row <$> ts) in
  (∀ c, income_by_cat d !! c = Numeric.dict_get (Numeric.income_by_cat n) c) ∧
  (∀ c, expense_by_cat d !! c = Numeric.dict_get (Numeric.expense_by_cat n) c) ∧
  total_income d = Numeric.total_income n ∧
  total_expense d = Numeric.total_expense n ∧
  balance d = Numeric.balance n ∧
  allocation d = Numeric.allocation n.
Proof.
  intros Hv d n. subst d n.
  pose proof (as_row_valid ts Hv) as Hv'.
  destruct (exact_groups_and_totals ts Hv) as (Hi & He & _ & _ & Hti & Hte & Hb).
  destruct (exact_totals (A:=exact) Qcplus_assoc Qcplus_comm Qcplus_0_l
              (λ _, eq_refl) (as_row <$> ts) Hv') as [Hti' Hte'].
  rewrite !of_type_as_row, sum_in_order_as_row in Hti', Hte'.
  assert (Hdict : ∀ ty c,
    match Numeric.of_category c (Numeric.of_type ty (as_row <$> ts)) with
    | [] => None
    | sel => Some (Numeric.sum_in_order (Numeric.amount <$> sel))
    end = category_entry ty c ts).
  { intros ty c. rewrite of_type_as_row, of_category_as_row.
    unfold category_entry.
    destruct (of_category c (of_type ty ts)) as [|t sel] eqn:E; [done|].
    by rewrite <- (sum_in_order_as_row (t :: sel)). }
  assert (Hn :
    Numeric.income_by_cat (Numeric.plot_dashboard (as_row <$> ts)) =
      Numeric.category_sums (Numeric.of_type "income" (as_row <$> ts)) ∧
    Numeric.expense_by_cat (Numeric.plot_dashboard (as_row <$> ts)) =
      Numeric.category_sums (Numeric.of_type "expense" (as_row <$> ts)) ∧
    Numeric.allocation (Numeric.plot_dashboard (as_row <$> ts)) =
      Numeric.allocation_chart
        (Numeric.total_income (Numeric.plot_dashboard (as_row <$> ts)))
        (Numeric.total_expense (Numeric.plot_dashboard (as_row <$> ts)))
        (Numeric.balance (Numeric.plot_dashboard (as_row <$> ts)))).
  { unfold Numeric.plot_dashboard. rewrite numeric_group_by_cat.
    by rewrite numeric_filter_is_income, numeric_filter_not_income by done. }
  destruct Hn as (Hni & Hne & Hna).
  destruct (numeric_totals exact (as_row <$> ts) Hv') as (_ & _ & Hnb).
  assert (Hba : balance (plot_dashboard ts) =
                Numeric.balance (Numeric.plot_dashboard (as_row <$> ts))).
  { rewrite Hb, Hnb, Hti, Hte, Hti', Hte'. done. }
  repeat split.
  - intros c. rewrite Hni, dict_get_category_sums, Hdict. apply Hi.
  - intros c. rewrite Hne, dict_get_category_sums, Hdict. apply He.
  - by rewrite Hti, Hti'.
  - by rewrite Hte, Hte'.
  - exact Hba.
  - rewrite Hna, <- Hba. rewrite Hti', Hte', <- Hti, <- Hte.
    rewrite <- allocation_chart_exact.
    unfold plot_dashboard. by destruct (group_by_cat ts).
Qed.
End exact_model.

(** X8: saving a new transaction changes the dashboard in one place.
    In the arithmetic of the script, and in any other, the dict of the
    other type and its total stay as they were, and in the dict of the
    transaction's type the entry of its category becomes what it was (0
    if there was none) plus the amount, every other entry staying as it
    was. *)
Theorem append_changes_one_entry
    (A : arith) (ts : list (Numeric.transaction A)) (t : Numeric.transaction A) :
  let d := Numeric.plot_dashboard ts in
  let d' := Numeric.plot_dashboard (ts ++ [t]) in
  let entry (by_cat : Numeric.dict A) (c : string) :=
    if String.eqb (Numeric.category t) c
    then Some (add A (default (zero A)
                        (Numeric.dict_get by_cat (Numeric.category t)))
                     (Numeric.amount t))
    else Numeric.dict_get by_cat c in
  if String.eqb (Numeric.type t) "income" then
    Numeric.expense_by_cat d' = Numeric.expense_by_cat d ∧
    Numeric.total_expense d' = Numeric.total_expense d ∧
    Numeric.income_by_cat d' = Numeric.tally (Numeric.income_by_cat d) t ∧
    ∀ c, Numeric.dict_get (Numeric.income_by_cat d') c =
         entry (Numeric.income_by_cat d) c
  else
    Numeric.income_by_cat d' = Numeric.income_by_cat d ∧
    Numeric.total_income d' = Numeric.total_income d ∧
    Numeric.expense_by_cat d' = Numeric.tally (Numeric.expense_by_cat d) t ∧
    ∀ c, Numeric.dict_get (Numeric.expense_by_cat d') c =
         entry (Numeric.expense_by_cat d) c.
Proof.
  intros d d' entry. subst d d' entry. unfold Numeric.plot_dashboard.
  rewrite numeric_group_by_cat_snoc. unfold Numeric.tally_step.
  destruct (Numeric.group_by_cat ts) as [inc exp].
  destruct (String.eqb (Numeric.type t) "income"); simpl;
    (split; [done|]; split; [done|]; split; [done|]);
    intros c; unfold Numeric.tally; apply dict_get_set.
Qed.

(** * Editing on the page *)

(** X15: while a valid transaction with an amount of at least 0.01 is
    being edited, saving the form as the page filled it ends the edit
    and leaves every row as it was.  But the category box is handed the
    index the category has in the list of the transaction's own type
    (line 93) with the list of the type the user picked (line 99): a
    pick whose list is too short for that index makes every run of the
    page raise [StreamlitAPIException] at line 100, and nothing is
    written. *)
Theorem page_while_editing (st : session_state) (e : nat) (t : transaction) :
  editing_index st = Some e →
  transactions st !! e = Some t →
  valid_transaction t →
  amount_min_value ≤ amount t →
  run_page untouched (Some ClickSave) st =
    (Ok Rerun, {| transactions := transactions st; editing_index := None |}) ∧
  (∀ entry clicked label k,
     picked_type entry = Some label →
     list_index (default_cat_list t) (category t) = Ok k →
     (length (categories label) ≤ k)%nat →
     run_page entry clicked st = (Raise StreamlitAPIException, st)).
Proof.
  intros He Ht Hv Hmin.
  destruct (valid_type_label t Hv) as (label & Hlab & Hlow & Hcats).
  destruct (list_index_found (default_cat_list t) (category t)
              (valid_default_cat_list t Hv)) as (k & Hk & Hkk).
  pose proof (form_defaults_editing st e t He Ht) as Hd. rewrite Hk in Hd.
  split.
  - rewrite run_page_cases, Hd. simpl. unfold selectbox at 1.
    rewrite Hlab. simpl. unfold selectbox. rewrite Hcats, Hkk. simpl.
    unfold number_input. rewrite decide_False by by apply Qcle_not_lt.
    simpl. rewrite (run_script_ok st _ _ Hd).
    assert (Hnew : new_transaction label (category t) (amount t) = t).
    { unfold new_transaction. rewrite Hlow. by destruct t. }
    rewrite Hnew. unfold mbind, script_bind.
    rewrite (save_button_update st t e He) by by eapply lookup_lt_Some.
    simpl. by rewrite list_insert_id.
  - intros entry clicked label' k' Hp Hk' Hlen.
    rewrite Hk in Hk'. injection Hk' as <-.
    rewrite run_page_cases, Hd. simpl. unfold selectbox at 1.
    rewrite Hlab, Hp. simpl. unfold selectbox.
    by rewrite lookup_ge_None_2.
Qed.

(** A 'Travel' expense is being edited and the user sets the type box
    to 'Income'. *)
Lemma page_while_editing_witness :
  editing_index editing_travel = Some 0%nat ∧
  run_page untouched (Some ClickSave) editing_travel =
    (Ok Rerun, {| transactions := [travel_250]; editing_index := None |}) ∧
  run_page {| picked_type := Some "Income"%string; picked_category := None;
              typed_amount := None |} None editing_travel =
    (Raise StreamlitAPIException, editing_travel).
Proof.
  split; [reflexivity|].
  assert (Hv : valid_transaction travel_250)
    by (apply (bool_decide_unpack _); by vm_compute).
  assert (Hmin : amount_min_value ≤ amount travel_250) by by vm_compute.
  destruct (page_while_editing editing_travel 0 travel_250 eq_refl eq_refl Hv Hmin)
    as [Hsave Hraise].
  split; [exact Hsave|].
  apply (Hraise _ None "Income"%string 11%nat); [reflexivity|by vm_compute|].
  simpl. lia.
Defined.
